(** * MQTT state media player: a shallow embedding of [schema_state.py]

    The development follows the Python module top to bottom: the feature
    tables, the configuration schema, the entity and its inbound message
    handler, and the outbound command methods.  Python objects that the
    module mutates (the entity's attributes) are threaded explicitly through
    a state-and-exception monad that also records the calls made to the host
    ([async_publish], [async_write_ha_state]). *)

From Stdlib Require Import ZArith List String Ascii Bool Lia.
From Stdlib Require Import DecimalString.
Import ListNotations.

Local Open Scope list_scope.
Local Open Scope string_scope.
Local Open Scope Z_scope.

(** ** Python values carried by JSON payloads *)

(** A Python [float] that came out of a JSON document, kept as the decimal
    [mant * 10 ^ expo] that the document spells. *)
Record pyfloat := PyFloat { mant : Z; expo : Z }.

#[warnings="-register-all"]
Inductive json :=
| JNull
| JBool (b : bool)
| JInt (z : Z)
| JFloat (f : pyfloat)
| JStr (s : string)
| JList (l : list json)
| JDict (d : list (string * json)).

(** ** Python dictionaries

    A [dict] keeps its keys in insertion order; assigning to a key that is
    present replaces the value in place. *)
Module Dict.

Definition t (V : Type) := list (string * V).

Fixpoint get {V} (d : t V) (k : string) : option V :=
  match d with
  | [] => None
  | (k', v) :: r => if String.eqb k' k then Some v else get r k
  end.

Definition contains {V} (d : t V) (k : string) : bool :=
  match get d k with Some _ => true | None => false end.

Fixpoint set {V} (d : t V) (k : string) (v : V) : t V :=
  match d with
  | [] => [(k, v)]
  | (k', v') :: r =>
      if String.eqb k' k then (k', v) :: r else (k', v') :: set r k v
  end.

(** [d.update(p)] *)
Definition update {V} (d p : t V) : t V :=
  fold_left (fun acc kv => set acc (fst kv) (snd kv)) p d.

(** [del d[k]] on a key that is present *)
Fixpoint del {V} (d : t V) (k : string) : t V :=
  match d with
  | [] => []
  | (k', v) :: r => if String.eqb k' k then r else (k', v) :: del r k
  end.

Definition keys {V} (d : t V) : list string := map fst d.

End Dict.

(** ** A reference JSON codec

    The module calls the host's [json_loads_object] and [json_dumps].  The
    properties below are stated for any decoder and encoder; this codec, which
    follows the JSON grammar, is the one concrete payloads are run with. *)
Module RefJson.

Definition dquote : ascii := "034"%char.
Definition backslash : ascii := "092"%char.

Definition is_ws (c : ascii) : bool :=
  match nat_of_ascii c with
  | 32%nat | 9%nat | 10%nat | 13%nat => true
  | _ => false
  end.

Definition digit_of (c : ascii) : option Z :=
  let n := Z.of_nat (nat_of_ascii c) in
  if (48 <=? n) && (n <=? 57) then Some (n - 48) else None.

Definition hex_of (c : ascii) : option Z :=
  let n := Z.of_nat (nat_of_ascii c) in
  if (48 <=? n) && (n <=? 57) then Some (n - 48)
  else if (97 <=? n) && (n <=? 102) then Some (n - 87)
  else if (65 <=? n) && (n <=? 70) then Some (n - 55)
  else None.

Fixpoint skip_ws (s : string) : string :=
  match s with
  | String c r => if is_ws c then skip_ws r else s
  | EmptyString => s
  end.

(** the longest prefix of digits, as a list, and what follows it *)
Fixpoint span_digits (s : string) : list Z * string :=
  match s with
  | String c r =>
      match digit_of c with
      | Some d => let '(ds, rest) := span_digits r in (d :: ds, rest)
      | None => ([], s)
      end
  | EmptyString => ([], s)
  end.

Definition digits_value (ds : list Z) : Z :=
  fold_left (fun acc d => 10 * acc + d) ds 0.

Definition strip_prefix (p s : string) : option string :=
  if String.prefix p s
  then Some (String.substring (String.length p)
               (String.length s - String.length p) s)
  else None.

(** [-? int frac? exp?]; a literal without fraction and exponent is an
    [int], any other a [float]. *)
Definition parse_number (s : string) : option (json * string) :=
  let '(neg, s1) :=
    match s with
    | String "-" r => (true, r)
    | _ => (false, s)
    end in
  let sign (z : Z) := if neg then - z else z in
  let '(ip, s2) := span_digits s1 in
  match ip with
  | [] => None
  | d0 :: more =>
      if (d0 =? 0) && negb (Nat.eqb (List.length more) 0) then None else
      let '(fp, s3, has_frac, ok_frac) :=
        match s2 with
        | String "." r =>
            let '(fp, s3) := span_digits r in
            (fp, s3, true, negb (Nat.eqb (List.length fp) 0))
        | _ => ([], s2, false, true)
        end in
      if negb ok_frac then None else
      let exp_part :=
        match s3 with
        | String c r =>
            if Ascii.eqb c "e" || Ascii.eqb c "E" then
              let '(eneg, r1) :=
                match r with
                | String "-" r' => (true, r')
                | String "+" r' => (false, r')
                | _ => (false, r)
                end in
              let '(ep, s4) := span_digits r1 in
              match ep with
              | [] => None
              | _ => Some (Some (if eneg then - digits_value ep
                                 else digits_value ep), s4)
              end
            else Some (None, s3)
        | EmptyString => Some (None, s3)
        end in
      match exp_part with
      | None => None
      | Some (None, s4) =>
          if has_frac
          then Some (JFloat (PyFloat (sign (digits_value (ip ++ fp)%list))
                               (- Z.of_nat (List.length fp))), s4)
          else Some (JInt (sign (digits_value ip)), s4)
      | Some (Some e, s4) =>
          Some (JFloat (PyFloat (sign (digits_value (ip ++ fp)%list))
                          (e - Z.of_nat (List.length fp))), s4)
      end
  end.

Definition byte (z : Z) : ascii := ascii_of_nat (Z.to_nat z).

(** UTF-8 bytes of a code point *)
Definition utf8 (cp : Z) : list ascii :=
  if cp <? 128 then [byte cp]
  else if cp <? 2048 then
    [byte (192 + cp / 64); byte (128 + cp mod 64)]
  else if cp <? 65536 then
    [byte (224 + cp / 4096); byte (128 + (cp / 64) mod 64);
     byte (128 + cp mod 64)]
  else
    [byte (240 + cp / 262144); byte (128 + (cp / 4096) mod 64);
     byte (128 + (cp / 64) mod 64); byte (128 + cp mod 64)].

Definition hex4 (s : string) : option (Z * string) :=
  match s with
  | String a (String b (String c (String d r))) =>
      match hex_of a, hex_of b, hex_of c, hex_of d with
      | Some x, Some y, Some z, Some w =>
          Some (4096 * x + 256 * y + 16 * z + w, r)
      | _, _, _, _ => None
      end
  | _ => None
  end.

(** the characters of a string literal after its opening quote; [acc] holds
    the decoded bytes in reverse *)
Fixpoint parse_string_body (fuel : nat) (s : string) (acc : list ascii)
  : option (string * string) :=
  match fuel with
  | O => None
  | S fuel =>
      match s with
      | EmptyString => None
      | String c r =>
          if Ascii.eqb c dquote
          then Some (string_of_list_ascii (rev acc), r)
          else if Ascii.eqb c backslash then
            match r with
            | String e r' =>
                let simple (x : ascii) :=
                  parse_string_body fuel r' (x :: acc) in
                if Ascii.eqb e dquote then simple dquote
                else if Ascii.eqb e backslash then simple backslash
                else if Ascii.eqb e "/" then simple "/"%char
                else if Ascii.eqb e "b" then simple "008"%char
                else if Ascii.eqb e "f" then simple "012"%char
                else if Ascii.eqb e "n" then simple "010"%char
                else if Ascii.eqb e "r" then simple "013"%char
                else if Ascii.eqb e "t" then simple "009"%char
                else if Ascii.eqb e "u" then
                  match hex4 r' with
                  | Some (hi, r2) =>
                      if (55296 <=? hi) && (hi <=? 56319) then
                        match r2 with
                        | String b1 (String u1 r3) =>
                            if Ascii.eqb b1 backslash && Ascii.eqb u1 "u" then
                              match hex4 r3 with
                              | Some (lo, r4) =>
                                  if (56320 <=? lo) && (lo <=? 57343) then
                                    parse_string_body fuel r4
                                      (rev (utf8 (65536 + 1024 * (hi - 55296)
                                                  + (lo - 56320)))
                                       ++ acc)%list
                                  else None
                              | None => None
                              end
                            else None
                        | _ => None
                        end
                      else if (56320 <=? hi) && (hi <=? 57343) then None
                      else parse_string_body fuel r2 (rev (utf8 hi) ++ acc)%list
                  | None => None
                  end
                else None
            | EmptyString => None
            end
          else if (nat_of_ascii c <? 32)%nat then None
          else parse_string_body fuel r (c :: acc)
      end
  end.

Definition parse_string (s : string) : option (string * string) :=
  parse_string_body (S (String.length s)) s [].

Fixpoint parse_value (fuel : nat) (s : string) : option (json * string) :=
  match fuel with
  | O => None
  | S fuel =>
      let s := skip_ws s in
      match s with
      | EmptyString => None
      | String c r =>
          if Ascii.eqb c "[" then
            match skip_ws r with
            | String "]" r' => Some (JList [], r')
            | _ => parse_elements fuel r []
            end
          else if Ascii.eqb c "{" then
            match skip_ws r with
            | String "}" r' => Some (JDict [], r')
            | _ => parse_members fuel r []
            end
          else if Ascii.eqb c dquote then
            match parse_string r with
            | Some (str, r') => Some (JStr str, r')
            | None => None
            end
          else
            match strip_prefix "null" s, strip_prefix "true" s,
                  strip_prefix "false" s with
            | Some r', _, _ => Some (JNull, r')
            | _, Some r', _ => Some (JBool true, r')
            | _, _, Some r' => Some (JBool false, r')
            | _, _, _ => parse_number s
            end
      end
  end

with parse_elements (fuel : nat) (s : string) (acc : list json)
  : option (json * string) :=
  match fuel with
  | O => None
  | S fuel =>
      match parse_value fuel s with
      | Some (v, r) =>
          match skip_ws r with
          | String "," r' => parse_elements fuel r' (v :: acc)
          | String "]" r' => Some (JList (rev (v :: acc)), r')
          | _ => None
          end
      | None => None
      end
  end

with parse_members (fuel : nat) (s : string) (acc : Dict.t json)
  : option (json * string) :=
  match fuel with
  | O => None
  | S fuel =>
      match skip_ws s with
      | String c r =>
          if Ascii.eqb c dquote then
            match parse_string r with
            | Some (k, r1) =>
                match skip_ws r1 with
                | String ":" r2 =>
                    match parse_value fuel r2 with
                    | Some (v, r3) =>
                        match skip_ws r3 with
                        | String "," r4 =>
                            parse_members fuel r4 (Dict.set acc k v)
                        | String "}" r4 =>
                            Some (JDict (Dict.set acc k v), r4)
                        | _ => None
                        end
                    | None => None
                    end
                | _ => None
                end
            | None => None
            end
          else None
      | EmptyString => None
      end
  end.

(** a whole document: one value, white space allowed around it *)
Definition loads (s : string) : option json :=
  match parse_value (2 * String.length s + 2) s with
  | Some (v, r) =>
      match skip_ws r with
      | EmptyString => Some v
      | _ => None
      end
  | None => None
  end.

Definition string_of_Z (z : Z) : string :=
  NilZero.string_of_int (Z.to_int z).

Definition hex_digit (z : Z) : ascii :=
  if z <? 10 then byte (48 + z) else byte (87 + z).

Definition escape_char (c : ascii) : string :=
  let n := Z.of_nat (nat_of_ascii c) in
  if Ascii.eqb c dquote
  then String backslash (String dquote EmptyString)
  else if Ascii.eqb c backslash
  then String backslash (String backslash EmptyString)
  else if n =? 10 then String backslash "n"
  else if n =? 13 then String backslash "r"
  else if n =? 9 then String backslash "t"
  else if n =? 8 then String backslash "b"
  else if n =? 12 then String backslash "f"
  else if n <? 32 then
    String backslash
      (String "u" (String "0" (String "0"
         (String (hex_digit (n / 16))
            (String (hex_digit (n mod 16)) EmptyString)))))
  else String c EmptyString.

Fixpoint escape (s : string) : string :=
  match s with
  | EmptyString => EmptyString
  | String c r => escape_char c ++ escape r
  end.

Definition quoted (s : string) : string :=
  String dquote (escape s ++ String dquote EmptyString).

(** compact output, keys in dictionary order *)
Fixpoint dumps (v : json) : string :=
  match v with
  | JNull => "null"
  | JBool true => "true"
  | JBool false => "false"
  | JInt z => string_of_Z z
  | JFloat f => string_of_Z (mant f) ++ "e" ++ string_of_Z (expo f)
  | JStr s => quoted s
  | JList l =>
      "[" ++ (fix elems (l : list json) : string :=
                match l with
                | [] => EmptyString
                | x :: r =>
                    dumps x ++
                    match r with
                    | [] => EmptyString
                    | _ => "," ++ elems r
                    end
                end) l ++ "]"
  | JDict d =>
      "{" ++ (fix members (d : list (string * json)) : string :=
                match d with
                | [] => EmptyString
                | (k, x) :: r =>
                    quoted k ++ ":" ++ dumps x ++
                    match r with
                    | [] => EmptyString
                    | _ => "," ++ members r
                    end
                end) d ++ "}"
  end.

End RefJson.

(** ** Exceptions, host calls and the entity monad *)

Inductive exn :=
| JSONDecodeError
| ValueError (msg : string)
| KeyError (key : string)
| TypeError (msg : string)
| ConfigError (name : string)
| Invalid (msg : string).

Inductive outcome (A : Type) :=
| Returned (a : A)
| Raised (e : exn).

Arguments Returned {A} a.
Arguments Raised {A} e.

(** Calls into the host that the entity makes. *)
Inductive effect :=
| Publish (topic : string) (payload : option string)
          (qos : Z) (retain : bool) (encoding : string)
| WriteHaState.

(** ** [MediaPlayerEntityFeature] *)

Module MediaPlayerEntityFeature.

Inductive t :=
| PAUSE | SEEK | VOLUME_SET | VOLUME_MUTE | PREVIOUS_TRACK | NEXT_TRACK
| TURN_ON | TURN_OFF | PLAY_MEDIA | VOLUME_STEP | SELECT_SOURCE | STOP
| CLEAR_PLAYLIST | PLAY | SHUFFLE_SET | SELECT_SOUND_MODE | BROWSE_MEDIA
| REPEAT_SET | GROUPING | MEDIA_ANNOUNCE | MEDIA_ENQUEUE
| STATE | SEND_COMMAND.

Definition eq_dec (f g : t) : {f = g} + {f <> g}.
Proof. decide equality. Defined.

Definition eqb (f g : t) : bool := if eq_dec f g then true else false.

End MediaPlayerEntityFeature.

Import MediaPlayerEntityFeature.

(** What the module takes from the host platform: the integer value of each
    flag of the [IntFlag] enumeration, and the JSON decoder and encoder.
    [json_dumps] is the text the encoder returns.  The host's encoder raises
    on a value it cannot encode (an integer beyond 64 bits); that case is
    not modelled: what is said of [async_send_command] with dictionary
    parameters is said of parameters that the encoder accepts. *)
Class Host := {
  flag : MediaPlayerEntityFeature.t -> Z;
  json_loads : string -> option json;
  json_dumps : json -> string;
}.

(** ** Module constants *)

Definition SERVICE_TO_STRING : list (MediaPlayerEntityFeature.t * string) :=
  [ (PAUSE, "pause");
    (SEEK, "seek");
    (VOLUME_SET, "volume_set");
    (VOLUME_MUTE, "volume_mute");
    (PREVIOUS_TRACK, "previous_track");
    (NEXT_TRACK, "next_track");
    (TURN_ON, "turn_on");
    (TURN_OFF, "turn_off");
    (PLAY_MEDIA, "play_media");
    (VOLUME_STEP, "volume_step");
    (SELECT_SOURCE, "select_source");
    (STOP, "stop");
    (CLEAR_PLAYLIST, "clear_playlist");
    (PLAY, "play");
    (SHUFFLE_SET, "shuffle_set");
    (SELECT_SOUND_MODE, "select_sound_mode");
    (BROWSE_MEDIA, "browse_media");
    (REPEAT_SET, "repeat_set");
    (GROUPING, "grouping");
    (MEDIA_ANNOUNCE, "media_announce");
    (MEDIA_ENQUEUE, "media_enqueue") ].

(** [{v: k for k, v in SERVICE_TO_STRING.items()}] *)
Definition STRING_TO_SERVICE : Dict.t MediaPlayerEntityFeature.t :=
  fold_left (fun acc kv => Dict.set acc (snd kv) (fst kv))
    SERVICE_TO_STRING [].

Definition DEFAULT_SERVICES `{Host} : Z :=
  Z.lor (Z.lor (Z.lor (Z.lor (Z.lor (Z.lor (Z.lor
    (flag TURN_ON) (flag TURN_OFF)) (flag PLAY)) (flag PAUSE)) (flag STOP))
    (flag VOLUME_SET)) (flag VOLUME_MUTE)) (flag SELECT_SOURCE).

Definition BATTERY := "battery_level".
Definition FAN_SPEED := "fan_speed".
Definition STATE := "state".

Definition STATE_ON := "on".
Definition STATE_OFF := "off".
Definition STATE_PLAYING := "playing".
Definition STATE_PAUSED := "paused".

Definition POSSIBLE_STATES : Dict.t string :=
  [ (STATE_ON, STATE_ON);
    (STATE_OFF, STATE_OFF);
    (STATE_PLAYING, STATE_PLAYING);
    (STATE_PAUSED, STATE_PAUSED) ].

Definition CONF_PAYLOAD_PAUSE := "payload_pause".
Definition CONF_PAYLOAD_SEEK := "payload_seek".
Definition CONF_PAYLOAD_VOLUME_SET := "payload_volume_set".
Definition CONF_PAYLOAD_VOLUME_MUTE := "payload_volume_mute".
Definition CONF_PAYLOAD_PREVIOUS_TRACK := "payload_previous_track".
Definition CONF_PAYLOAD_NEXT_TRACK := "payload_next_track".
Definition CONF_PAYLOAD_TURN_ON := "payload_turn_on".
Definition CONF_PAYLOAD_TURN_OFF := "payload_turn_off".
Definition CONF_PAYLOAD_PLAY_MEDIA := "payload_play_media".
Definition CONF_PAYLOAD_VOLUME_STEP := "payload_volume_step".
Definition CONF_PAYLOAD_SELECT_SOURCE := "payload_select_source".
Definition CONF_PAYLOAD_STOP := "payload_stop".
Definition CONF_PAYLOAD_CLEAR_PLAYLIST := "payload_clear_playlist".
Definition CONF_PAYLOAD_PLAY := "payload_play".
Definition CONF_PAYLOAD_SHUFFLE_SET := "payload_shuffle_set".
Definition CONF_PAYLOAD_SELECT_SOUND_MODE := "payload_select_sound_mode".
Definition CONF_PAYLOAD_BROWSE_MEDIA := "payload_browse_media".
Definition CONF_PAYLOAD_REPEAT_SET := "payload_repeat_set".
Definition CONF_PAYLOAD_GROUPING := "payload_grouping".
Definition CONF_PAYLOAD_MEDIA_ANNOUNCE := "payload_media_announce".
Definition CONF_PAYLOAD_MEDIA_ENQUEUE := "payload_media_enqueue".

Definition DEFAULT_RETAIN := false.
Definition DEFAULT_PAYLOAD_PAUSE := "pause".
Definition DEFAULT_PAYLOAD_PREVIOUS_TRACK := "previous".
Definition DEFAULT_PAYLOAD_NEXT_TRACK := "next".
Definition DEFAULT_PAYLOAD_STOP := "stop".
Definition DEFAULT_PAYLOAD_CLEAR_PLAYLIST := "clear_playlist".
Definition DEFAULT_PAYLOAD_PLAY := "play".
Definition DEFAULT_PAYLOAD_BROWSE_MEDIA := "browse".
Definition DEFAULT_PAYLOAD_MEDIA_ANNOUNCE := "media_announce".

Definition _FEATURE_PAYLOADS : list (MediaPlayerEntityFeature.t * string) :=
  [ (PAUSE, CONF_PAYLOAD_PAUSE);
    (SEEK, CONF_PAYLOAD_SEEK);
    (VOLUME_SET, CONF_PAYLOAD_VOLUME_SET);
    (VOLUME_MUTE, CONF_PAYLOAD_VOLUME_MUTE);
    (PREVIOUS_TRACK, CONF_PAYLOAD_PREVIOUS_TRACK);
    (NEXT_TRACK, CONF_PAYLOAD_NEXT_TRACK);
    (TURN_ON, CONF_PAYLOAD_TURN_ON);
    (TURN_OFF, CONF_PAYLOAD_TURN_OFF);
    (PLAY_MEDIA, CONF_PAYLOAD_PLAY_MEDIA);
    (VOLUME_STEP, CONF_PAYLOAD_VOLUME_STEP);
    (SELECT_SOURCE, CONF_PAYLOAD_SELECT_SOURCE);
    (STOP, CONF_PAYLOAD_STOP);
    (CLEAR_PLAYLIST, CONF_PAYLOAD_CLEAR_PLAYLIST);
    (PLAY, CONF_PAYLOAD_PLAY);
    (SHUFFLE_SET, CONF_PAYLOAD_SHUFFLE_SET);
    (SELECT_SOUND_MODE, CONF_PAYLOAD_SELECT_SOUND_MODE);
    (BROWSE_MEDIA, CONF_PAYLOAD_BROWSE_MEDIA);
    (REPEAT_SET, CONF_PAYLOAD_REPEAT_SET);
    (GROUPING, CONF_PAYLOAD_GROUPING);
    (MEDIA_ANNOUNCE, CONF_PAYLOAD_MEDIA_ANNOUNCE);
    (MEDIA_ENQUEUE, CONF_PAYLOAD_MEDIA_ENQUEUE) ].

(** lookup in a dictionary keyed by enumeration members *)
Fixpoint feature_get {V} (d : list (MediaPlayerEntityFeature.t * V))
  (f : MediaPlayerEntityFeature.t) : option V :=
  match d with
  | [] => None
  | (g, v) :: r =>
      if MediaPlayerEntityFeature.eqb g f then Some v else feature_get r f
  end.

(** ** The helpers of [schema.py] *)

(** Modelled from the spec: [strings_to_services] lives in the module
    [schema.py], which is not among the sources.  Spec 4.1: each name is
    resolved through the string-to-capability table, the first unrecognised
    name fails with a configuration error, input order is irrelevant and
    duplicates collapse; the result is the bit set of the resolved flags. *)
Fixpoint strings_to_services `{Host} (strings : list string)
  (string_to_service : Dict.t MediaPlayerEntityFeature.t) : outcome Z :=
  match strings with
  | [] => Returned 0
  | name :: rest =>
      match Dict.get string_to_service name with
      | None => Raised (ConfigError name)
      | Some service =>
          match strings_to_services rest string_to_service with
          | Returned services => Returned (Z.lor (flag service) services)
          | Raised e => Raised e
          end
      end
  end.

(** Modelled from the spec: [services_to_strings] lives in the same absent
    module.  Spec 4.1: the inverse of [strings_to_services], the names in a
    stable order; here the order of the table, one name for each entry whose
    flag is in the set. *)
Definition services_to_strings `{Host} (services : Z)
  (service_to_string : list (MediaPlayerEntityFeature.t * string))
  : list string :=
  map snd
    (filter (fun kv => negb (Z.land (flag (fst kv)) services =? 0))
       service_to_string).

Definition DEFAULT_SERVICE_STRINGS `{Host} : list string :=
  services_to_strings DEFAULT_SERVICES SERVICE_TO_STRING.

(** ** Configuration *)

(** What the user wrote.  Topics, strings and lists are as the host's
    validators ([valid_publish_topic], [cv.string], [cv.ensure_list]) leave
    them; [qos] and [encoding] come from the host's base schema. *)
Record RawConfig := {
  raw_source_list : option (list string);
  raw_supported_features : option (list string);
  raw_payloads : Dict.t string;
  raw_command_topic : option string;
  raw_set_volume_topic : option string;
  raw_send_command_topic : option string;
  raw_state_topic : option string;
  raw_retain : option bool;
  raw_qos : Z;
  raw_encoding : string;
}.

(** The validated configuration, [ConfigType]; [conf_payloads] holds its
    [payload_*] entries. *)
Record ConfigType := {
  CONF_SOURCE_LIST : list string;
  CONF_SUPPORTED_FEATURES : list string;
  conf_payloads : Dict.t string;
  CONF_COMMAND_TOPIC : option string;
  CONF_SET_VOLUME_TOPIC : option string;
  CONF_SEND_COMMAND_TOPIC : option string;
  CONF_STATE_TOPIC : option string;
  CONF_RETAIN : bool;
  CONF_QOS : Z;
  CONF_ENCODING : string;
}.

(** The [payload_*] keys that [PLATFORM_SCHEMA_STATE_MODERN] declares, each
    with its default. *)
Definition schema_payloads : Dict.t string :=
  [ (CONF_PAYLOAD_PAUSE, DEFAULT_PAYLOAD_PAUSE);
    (CONF_PAYLOAD_PREVIOUS_TRACK, DEFAULT_PAYLOAD_PREVIOUS_TRACK);
    (CONF_PAYLOAD_NEXT_TRACK, DEFAULT_PAYLOAD_NEXT_TRACK);
    (CONF_PAYLOAD_STOP, DEFAULT_PAYLOAD_STOP);
    (CONF_PAYLOAD_CLEAR_PLAYLIST, DEFAULT_PAYLOAD_CLEAR_PLAYLIST);
    (CONF_PAYLOAD_PLAY, DEFAULT_PAYLOAD_PLAY);
    (CONF_PAYLOAD_BROWSE_MEDIA, DEFAULT_PAYLOAD_BROWSE_MEDIA);
    (CONF_PAYLOAD_MEDIA_ANNOUNCE, DEFAULT_PAYLOAD_MEDIA_ANNOUNCE) ].

(** how a [vol.Schema] treats keys it does not declare *)
Inductive extra := PREVENT_EXTRA | REMOVE_EXTRA.

Definition default {A} (o : option A) (d : A) : A :=
  match o with Some a => a | None => d end.

(** The schema applied to a configuration: declared keys are kept or take
    their default, an undeclared [payload_*] key is refused or removed, and
    every supported-feature name has to be a key of [STRING_TO_SERVICE]. *)
Definition validate `{Host} (policy : extra) (raw : RawConfig)
  : outcome ConfigType :=
  let undeclared :=
    existsb (fun kv => negb (Dict.contains schema_payloads (fst kv)))
      (raw_payloads raw) in
  let features := default (raw_supported_features raw)
                    DEFAULT_SERVICE_STRINGS in
  match policy, undeclared with
  | PREVENT_EXTRA, true => Raised (Invalid "extra keys not allowed")
  | _, _ =>
      if forallb (Dict.contains STRING_TO_SERVICE) features then
        Returned
          {| CONF_SOURCE_LIST := default (raw_source_list raw) [];
             CONF_SUPPORTED_FEATURES := features;
             conf_payloads :=
               map (fun kv =>
                      (fst kv,
                       default (Dict.get (raw_payloads raw) (fst kv))
                         (snd kv)))
                 schema_payloads;
             CONF_COMMAND_TOPIC := raw_command_topic raw;
             CONF_SET_VOLUME_TOPIC := raw_set_volume_topic raw;
             CONF_SEND_COMMAND_TOPIC := raw_send_command_topic raw;
             CONF_STATE_TOPIC := raw_state_topic raw;
             CONF_RETAIN := default (raw_retain raw) DEFAULT_RETAIN;
             CONF_QOS := raw_qos raw;
             CONF_ENCODING := raw_encoding raw |}
      else Raised (Invalid "value must be one of the supported features")
  end.

Definition PLATFORM_SCHEMA_STATE_MODERN `{Host} := validate PREVENT_EXTRA.
Definition DISCOVERY_SCHEMA_STATE `{Host} := validate REMOVE_EXTRA.

(** ** The entity *)

Record MqttStateMediaPlayer := {
  _config : ConfigType;
  _attr_supported_features : Z;
  _attr_source_list : option (list string);
  _command_topic : option string;
  _set_volume_topic : option string;
  _send_command_topic : option string;
  _payloads : Dict.t (option string);
  _state_attrs : Dict.t json;
  _attr_state : option string;
  _attr_fan_speed : option json;
  _attr_battery_level : option json;
}.

(** A method body: it runs on the entity, returns or raises, leaves the
    entity as it is at that point, and lists the host calls it made. *)
Definition M (A : Type) : Type :=
  MqttStateMediaPlayer -> outcome A * MqttStateMediaPlayer * list effect.

Definition ret {A} (a : A) : M A := fun self => (Returned a, self, []).

Definition raise {A} (e : exn) : M A := fun self => (Raised e, self, []).

Definition bind {A B} (m : M A) (k : A -> M B) : M B :=
  fun self =>
    match m self with
    | (Returned a, self1, out1) =>
        match k a self1 with
        | (r, self2, out2) => (r, self2, (out1 ++ out2)%list)
        end
    | (Raised e, self1, out1) => (Raised e, self1, out1)
    end.

Notation "x <- m ;; k" := (bind m (fun x => k))
  (at level 61, m at next level, right associativity).
Notation "m ;; k" := (bind m (fun _ => k))
  (at level 61, right associativity).

Definition lift {A} (o : outcome A) : M A :=
  fun self => (o, self, []).

Definition get_self : M MqttStateMediaPlayer :=
  fun self => (Returned self, self, []).

Definition modify (f : MqttStateMediaPlayer -> MqttStateMediaPlayer)
  : M unit :=
  fun self => (Returned tt, f self, []).

Definition emit (x : effect) : M unit :=
  fun self => (Returned tt, self, [x]).

Definition result {A} (r : outcome A * MqttStateMediaPlayer * list effect)
  : outcome A := fst (fst r).
Definition entity {A} (r : outcome A * MqttStateMediaPlayer * list effect)
  : MqttStateMediaPlayer := snd (fst r).
Definition effects {A} (r : outcome A * MqttStateMediaPlayer * list effect)
  : list effect := snd r.

(** the [async_publish] calls among the host calls *)
Definition publishes (out : list effect) : list effect :=
  filter (fun x => match x with Publish _ _ _ _ _ => true | _ => false end)
    out.

(** attribute assignments *)
Definition set_state_attrs (d : Dict.t json) (s : MqttStateMediaPlayer) :=
  {| _config := _config s;
     _attr_supported_features := _attr_supported_features s;
     _attr_source_list := _attr_source_list s;
     _command_topic := _command_topic s;
     _set_volume_topic := _set_volume_topic s;
     _send_command_topic := _send_command_topic s;
     _payloads := _payloads s;
     _state_attrs := d;
     _attr_state := _attr_state s;
     _attr_fan_speed := _attr_fan_speed s;
     _attr_battery_level := _attr_battery_level s |}.

Definition set_attr_state (v : option string) (s : MqttStateMediaPlayer) :=
  {| _config := _config s;
     _attr_supported_features := _attr_supported_features s;
     _attr_source_list := _attr_source_list s;
     _command_topic := _command_topic s;
     _set_volume_topic := _set_volume_topic s;
     _send_command_topic := _send_command_topic s;
     _payloads := _payloads s;
     _state_attrs := _state_attrs s;
     _attr_state := v;
     _attr_fan_speed := _attr_fan_speed s;
     _attr_battery_level := _attr_battery_level s |}.

Definition set_attr_fan_speed (v : json) (s : MqttStateMediaPlayer) :=
  {| _config := _config s;
     _attr_supported_features := _attr_supported_features s;
     _attr_source_list := _attr_source_list s;
     _command_topic := _command_topic s;
     _set_volume_topic := _set_volume_topic s;
     _send_command_topic := _send_command_topic s;
     _payloads := _payloads s;
     _state_attrs := _state_attrs s;
     _attr_state := _attr_state s;
     _attr_fan_speed := Some v;
     _attr_battery_level := _attr_battery_level s |}.

Definition set_attr_battery_level (v : json) (s : MqttStateMediaPlayer) :=
  {| _config := _config s;
     _attr_supported_features := _attr_supported_features s;
     _attr_source_list := _attr_source_list s;
     _command_topic := _command_topic s;
     _set_volume_topic := _set_volume_topic s;
     _send_command_topic := _send_command_topic s;
     _payloads := _payloads s;
     _state_attrs := _state_attrs s;
     _attr_state := _attr_state s;
     _attr_fan_speed := _attr_fan_speed s;
     _attr_battery_level := Some v |}.

(** [__init__] up to the call of [_setup_from_config]: [_state_attrs] is the
    empty dictionary, no attribute is assigned yet. *)
Definition blank (config : ConfigType) : MqttStateMediaPlayer :=
  {| _config := config;
     _attr_supported_features := 0;
     _attr_source_list := None;
     _command_topic := None;
     _set_volume_topic := None;
     _send_command_topic := None;
     _payloads := [];
     _state_attrs := [];
     _attr_state := None;
     _attr_fan_speed := None;
     _attr_battery_level := None |}.

(** the tuple of keys that [_setup_from_config] reads the payloads of *)
Definition payload_keys : list string :=
  [ CONF_PAYLOAD_PAUSE; CONF_PAYLOAD_SEEK; CONF_PAYLOAD_VOLUME_SET;
    CONF_PAYLOAD_VOLUME_MUTE; CONF_PAYLOAD_PREVIOUS_TRACK;
    CONF_PAYLOAD_NEXT_TRACK; CONF_PAYLOAD_TURN_ON; CONF_PAYLOAD_TURN_OFF;
    CONF_PAYLOAD_PLAY_MEDIA; CONF_PAYLOAD_VOLUME_STEP;
    CONF_PAYLOAD_SELECT_SOURCE; CONF_PAYLOAD_STOP;
    CONF_PAYLOAD_CLEAR_PLAYLIST; CONF_PAYLOAD_PLAY; CONF_PAYLOAD_SHUFFLE_SET;
    CONF_PAYLOAD_SELECT_SOUND_MODE; CONF_PAYLOAD_BROWSE_MEDIA;
    CONF_PAYLOAD_REPEAT_SET; CONF_PAYLOAD_GROUPING;
    CONF_PAYLOAD_MEDIA_ANNOUNCE; CONF_PAYLOAD_MEDIA_ENQUEUE ].

(** the assignments of [_setup_from_config], [supported] being the value
    computed for [_attr_supported_features] *)
Definition assign_from_config (config : ConfigType) (supported : Z)
  (self : MqttStateMediaPlayer) : MqttStateMediaPlayer :=
  {| _config := _config self;
     _attr_supported_features := supported;
     _attr_source_list := Some (CONF_SOURCE_LIST config);
     _command_topic := CONF_COMMAND_TOPIC config;
     _set_volume_topic := CONF_SET_VOLUME_TOPIC config;
     _send_command_topic := CONF_SEND_COMMAND_TOPIC config;
     _payloads :=
       fold_left
         (fun acc key => Dict.set acc key
                           (Dict.get (conf_payloads config) key))
         payload_keys [];
     _state_attrs := _state_attrs self;
     _attr_state := _attr_state self;
     _attr_fan_speed := _attr_fan_speed self;
     _attr_battery_level := _attr_battery_level self |}.

Definition _setup_from_config `{Host} (config : ConfigType) : M unit :=
  let supported_feature_strings := CONF_SUPPORTED_FEATURES config in
  services <- lift (strings_to_services supported_feature_strings
                      STRING_TO_SERVICE) ;;
  modify (assign_from_config config
            (Z.lor (flag MediaPlayerEntityFeature.STATE) services)).

(** [MqttStateMediaPlayer(hass, config, ...)] *)
Definition __init__ `{Host} (config : ConfigType)
  : outcome unit * MqttStateMediaPlayer * list effect :=
  _setup_from_config config (blank config).

(** ** Python operations on decoded values *)

Definition py_type_name (v : json) : string :=
  match v with
  | JNull => "NoneType"
  | JBool _ => "bool"
  | JInt _ => "int"
  | JFloat _ => "float"
  | JStr _ => "str"
  | JList _ => "list"
  | JDict _ => "dict"
  end.

(** truth value of an object *)
Definition py_truthy (v : json) : bool :=
  match v with
  | JNull => false
  | JBool b => b
  | JInt z => negb (z =? 0)
  | JFloat f => negb (mant f =? 0)
  | JStr s => negb (String.eqb s EmptyString)
  | JList l => match l with [] => false | _ => true end
  | JDict d => match d with [] => false | _ => true end
  end.

(** [v in d] for a dictionary with string keys: a list or a dictionary
    cannot be hashed, any other value that is not a string is not a key *)
Definition py_in {V} (v : json) (d : Dict.t V) : outcome bool :=
  match v with
  | JStr s => Returned (Dict.contains d s)
  | JList _ | JDict _ =>
      Raised (TypeError ("unhashable type: '" ++ py_type_name v ++ "'"))
  | _ => Returned false
  end.

Definition as_decimal (v : json) : option pyfloat :=
  match v with
  | JInt z => Some (PyFloat z 0)
  | JBool b => Some (PyFloat (if b then 1 else 0) 0)
  | JFloat f => Some f
  | _ => None
  end.

Definition decimal_compare (f : pyfloat) (n : Z) : comparison :=
  if 0 <=? expo f
  then Z.compare (mant f * 10 ^ expo f) n
  else Z.compare (mant f) (n * 10 ^ (- expo f)).

Definition not_supported (op : string) (v : json) : exn :=
  TypeError ("'" ++ op ++ "' not supported between instances of '"
             ++ py_type_name v ++ "' and 'int'").

(** [v < n] and [v > n] for an integer [n] *)
Definition py_lt_int (v : json) (n : Z) : outcome bool :=
  match as_decimal v with
  | Some f =>
      Returned (match decimal_compare f n with Lt => true | _ => false end)
  | None => Raised (not_supported "<" v)
  end.

Definition py_gt_int (v : json) (n : Z) : outcome bool :=
  match as_decimal v with
  | Some f =>
      Returned (match decimal_compare f n with Gt => true | _ => false end)
  | None => Raised (not_supported ">" v)
  end.

(** [min(n, v)]: the first argument unless the second is smaller *)
Definition py_min (n : Z) (v : json) : outcome json :=
  match py_lt_int v n with
  | Returned b => Returned (if b then v else JInt n)
  | Raised e => Raised e
  end.

(** [max(n, v)]: the first argument unless the second is greater *)
Definition py_max (n : Z) (v : json) : outcome json :=
  match py_gt_int v n with
  | Returned b => Returned (if b then v else JInt n)
  | Raised e => Raised e
  end.

(** The host's [json_loads_object]: decode, and insist on a dictionary. *)
Definition json_loads_object `{Host} (obj : string)
  : outcome (Dict.t json) :=
  match json_loads obj with
  | None => Raised JSONDecodeError
  | Some (JDict d) => Returned d
  | Some value =>
      Raised (ValueError ("Expected JSON to be parsed as a dict got <class '"
                          ++ py_type_name value ++ "'>"))
  end.

(** ** Inbound: the state topic *)

Definition _update_state_attributes (payload : Dict.t json) : M unit :=
  modify (fun self =>
            set_state_attrs (Dict.update (_state_attrs self) payload) self) ;;
  self <- get_self ;;
  modify (set_attr_fan_speed
            (default (Dict.get (_state_attrs self) FAN_SPEED) (JInt 0))) ;;
  self <- get_self ;;
  low <- lift (py_min 100
                 (default (Dict.get (_state_attrs self) BATTERY) (JInt 0))) ;;
  level <- lift (py_max 0 low) ;;
  modify (set_attr_battery_level level).

(** The body of the callback subscribed to the state topic.  The decorators
    around it ([callback], [log_messages], [write_state_on_attr_change])
    belong to the host. *)
Definition state_message_received `{Host} (msg_payload : string) : M unit :=
  payload <- lift (json_loads_object msg_payload) ;;
  payload <-
    match Dict.get payload STATE with
    | Some state =>
        known <- lift (py_in state POSSIBLE_STATES) ;;
        if known || (match state with JNull => true | _ => false end) then
          (if py_truthy state then
             match state with
             | JStr s =>
                 match Dict.get POSSIBLE_STATES s with
                 | Some v => modify (set_attr_state (Some v))
                 | None => raise (KeyError s)
                 end
             | _ => raise (KeyError (py_type_name state))
             end
           else modify (set_attr_state None)) ;;
          ret (Dict.del payload STATE)
        else ret payload
    | None => ret payload
    end ;;
  _update_state_attributes payload.

(** ** Outbound: the command methods *)

Definition async_publish (topic : string) (payload : option string)
  (qos : Z) (retain : bool) (encoding : string) : M unit :=
  emit (Publish topic payload qos retain encoding).

Definition async_write_ha_state : M unit := emit WriteHaState.

Definition _async_publish_command (feature : MediaPlayerEntityFeature.t)
  : M unit :=
  self <- get_self ;;
  match _command_topic self with
  | None => ret tt
  | Some topic =>
      key <- match feature_get _FEATURE_PAYLOADS feature with
             | Some key => ret key
             | None => raise (KeyError "feature")
             end ;;
      payload <- match Dict.get (_payloads self) key with
                 | Some payload => ret payload
                 | None => raise (KeyError key)
                 end ;;
      async_publish topic payload
        (CONF_QOS (_config self)) (CONF_RETAIN (_config self))
        (CONF_ENCODING (_config self)) ;;
      async_write_ha_state
  end.

Definition async_turn_off : M unit := _async_publish_command TURN_OFF.

Definition async_turn_on : M unit := _async_publish_command TURN_ON.

Definition async_set_volume_level (volume : pyfloat) : M unit :=
  _async_publish_command VOLUME_SET.

Definition async_mute_volume (mute : bool) : M unit :=
  if mute
  then _async_publish_command VOLUME_MUTE
  else _async_publish_command VOLUME_MUTE.

(** [self.source_list is not None and source in self.source_list] *)
Definition known_source (self : MqttStateMediaPlayer) (source : string)
  : bool :=
  match _attr_source_list self with
  | Some source_list => existsb (String.eqb source) source_list
  | None => false
  end.

Definition async_select_source (source : string) : M unit :=
  self <- get_self ;;
  if known_source self source
  then _async_publish_command SELECT_SOURCE
  else raise (ValueError ("Unknown input source: " ++ source ++ ".")).

Definition async_pause : M unit := _async_publish_command PAUSE.

Definition async_media_play : M unit := _async_publish_command PLAY.

Definition async_media_pause : M unit := _async_publish_command PAUSE.

Definition async_media_previous_track : M unit :=
  _async_publish_command PREVIOUS_TRACK.

Definition async_media_next_track : M unit :=
  _async_publish_command NEXT_TRACK.

(** [params] is a dictionary, a list or [None] *)
Definition async_send_command `{Host} (command : string)
  (params : option json) : M unit :=
  self <- get_self ;;
  match _send_command_topic self with
  | None => ret tt
  | Some topic =>
      if Z.land (_attr_supported_features self) (flag SEND_COMMAND) =? 0
      then ret tt
      else
        let payload :=
          match params with
          | Some (JDict params) =>
              let message := [("command", JStr command)] in
              let message := Dict.update message params in
              json_dumps (JDict message)
          | _ => command
          end in
        async_publish topic (Some payload)
          (CONF_QOS (_config self)) (CONF_RETAIN (_config self))
          (CONF_ENCODING (_config self))
  end.

(** The service calls that reach the entity, one for each method above. *)
Inductive invocation :=
| TurnOff
| TurnOn
| SetVolumeLevel (volume : pyfloat)
| MuteVolume (mute : bool)
| SelectSource (source : string)
| Pause
| MediaPlay
| MediaPause
| MediaPreviousTrack
| MediaNextTrack
| SendCommand (command : string) (params : option json).

Definition invoke `{Host} (i : invocation) : M unit :=
  match i with
  | TurnOff => async_turn_off
  | TurnOn => async_turn_on
  | SetVolumeLevel volume => async_set_volume_level volume
  | MuteVolume mute => async_mute_volume mute
  | SelectSource source => async_select_source source
  | Pause => async_pause
  | MediaPlay => async_media_play
  | MediaPause => async_media_pause
  | MediaPreviousTrack => async_media_previous_track
  | MediaNextTrack => async_media_next_track
  | SendCommand command params => async_send_command command params
  end.

(** the methods that publish on the command topic *)
Definition on_command_topic (i : invocation) : bool :=
  match i with
  | SendCommand _ _ => false
  | _ => true
  end.

(** ** A reference host and example players *)

(** The values of the flags in the host's enumeration.  [STATE] and
    [SEND_COMMAND], which the module names beyond the members of its tables,
    stand on two further bits. *)
Definition ha_flag (f : MediaPlayerEntityFeature.t) : Z :=
  match f with
  | PAUSE => 1
  | SEEK => 2
  | VOLUME_SET => 4
  | VOLUME_MUTE => 8
  | PREVIOUS_TRACK => 16
  | NEXT_TRACK => 32
  | TURN_ON => 128
  | TURN_OFF => 256
  | PLAY_MEDIA => 512
  | VOLUME_STEP => 1024
  | SELECT_SOURCE => 2048
  | STOP => 4096
  | CLEAR_PLAYLIST => 8192
  | PLAY => 16384
  | SHUFFLE_SET => 32768
  | SELECT_SOUND_MODE => 65536
  | BROWSE_MEDIA => 131072
  | REPEAT_SET => 262144
  | GROUPING => 524288
  | MEDIA_ANNOUNCE => 1048576
  | MEDIA_ENQUEUE => 2097152
  | MediaPlayerEntityFeature.STATE => 8388608
  | SEND_COMMAND => 16777216
  end.

Definition ref_host : Host :=
  {| flag := ha_flag;
     json_loads := RefJson.loads;
     json_dumps := RefJson.dumps |}.

(** a configuration that names its four topics and two sources and leaves
    everything else to the defaults *)
Definition living_room_raw : RawConfig :=
  {| raw_source_list := Some ["TV"; "Radio"];
     raw_supported_features := None;
     raw_payloads := [];
     raw_command_topic := Some "player/command";
     raw_set_volume_topic := Some "player/volume/set";
     raw_send_command_topic := Some "player/send";
     raw_state_topic := Some "player/state";
     raw_retain := None;
     raw_qos := 0;
     raw_encoding := "utf-8" |}.

(** the same without a command topic *)
Definition kitchen_raw : RawConfig :=
  {| raw_source_list := Some ["TV"; "Radio"];
     raw_supported_features := None;
     raw_payloads := [];
     raw_command_topic := None;
     raw_set_volume_topic := Some "player/volume/set";
     raw_send_command_topic := Some "player/send";
     raw_state_topic := Some "player/state";
     raw_retain := None;
     raw_qos := 0;
     raw_encoding := "utf-8" |}.

(** the player that the schema and [__init__] make of a configuration; a
    configuration that is refused gives the blank player *)
Definition player_of `{Host} (raw : RawConfig) : MqttStateMediaPlayer :=
  match DISCOVERY_SCHEMA_STATE raw with
  | Returned config => entity (__init__ config)
  | Raised _ =>
      blank {| CONF_SOURCE_LIST := []; CONF_SUPPORTED_FEATURES := [];
               conf_payloads := []; CONF_COMMAND_TOPIC := None;
               CONF_SET_VOLUME_TOPIC := None;
               CONF_SEND_COMMAND_TOPIC := None; CONF_STATE_TOPIC := None;
               CONF_RETAIN := false; CONF_QOS := 0;
               CONF_ENCODING := EmptyString |}
  end.

Definition living_room : MqttStateMediaPlayer :=
  Eval vm_compute in @player_of ref_host living_room_raw.

Definition kitchen : MqttStateMediaPlayer :=
  Eval vm_compute in @player_of ref_host kitchen_raw.

(** a player that has the [SEND_COMMAND] bit among its supported features *)
Definition with_send_command `{Host} (self : MqttStateMediaPlayer)
  : MqttStateMediaPlayer :=
  {| _config := _config self;
     _attr_supported_features :=
       Z.lor (_attr_supported_features self) (flag SEND_COMMAND);
     _attr_source_list := _attr_source_list self;
     _command_topic := _command_topic self;
     _set_volume_topic := _set_volume_topic self;
     _send_command_topic := _send_command_topic self;
     _payloads := _payloads self;
     _state_attrs := _state_attrs self;
     _attr_state := _attr_state self;
     _attr_fan_speed := _attr_fan_speed self;
     _attr_battery_level := _attr_battery_level self |}.

Definition studio : MqttStateMediaPlayer :=
  Eval vm_compute in @with_send_command ref_host living_room.

(** a status message whose [state] is none of the known ones *)
Definition bogus_message : string :=
  RefJson.dumps (JDict [("state", JStr "bogus"); ("volume", JInt 7)]).

(** ** Assumptions on the flag values

    The members of the enumeration are distinct bits: no two of them share a
    bit, and none is zero. *)
Definition flags_disjoint `{Host} : Prop :=
  forall f g : MediaPlayerEntityFeature.t,
    f <> g -> Z.land (flag f) (flag g) = 0.

Definition flags_nonzero `{Host} : Prop :=
  forall f : MediaPlayerEntityFeature.t, flag f <> 0.

(** the bit set of a list of flags *)
Definition lor_flags `{Host} (fs : list MediaPlayerEntityFeature.t) : Z :=
  fold_right (fun f acc => Z.lor (flag f) acc) 0 fs.

(** ** Further constants and notions used by the properties *)

(** [ALL_SERVICES]: the default services or-ed, from left to right, with
    every member that has a name *)
Definition ALL_SERVICES `{Host} : Z :=
  fold_left (fun acc f => Z.lor acc (flag f))
    [ PAUSE; SEEK; VOLUME_SET; VOLUME_MUTE; PREVIOUS_TRACK; NEXT_TRACK;
      TURN_ON; TURN_OFF; PLAY_MEDIA; VOLUME_STEP; SELECT_SOURCE; STOP;
      CLEAR_PLAYLIST; PLAY; SHUFFLE_SET; SELECT_SOUND_MODE; BROWSE_MEDIA;
      REPEAT_SET; GROUPING; MEDIA_ANNOUNCE; MEDIA_ENQUEUE ]
    DEFAULT_SERVICES.


(** two players that differ in their device state at most: what
    [_setup_from_config] assigns is the same in both *)
Definition same_configuration (a b : MqttStateMediaPlayer) : Prop :=
  _config a = _config b
  /\ _attr_supported_features a = _attr_supported_features b
  /\ _attr_source_list a = _attr_source_list b
  /\ _command_topic a = _command_topic b
  /\ _set_volume_topic a = _set_volume_topic b
  /\ _send_command_topic a = _send_command_topic b
  /\ _payloads a = _payloads b.

(** the device state of two players is the same *)
Definition same_device_state (a b : MqttStateMediaPlayer) : Prop :=
  _state_attrs a = _state_attrs b
  /\ _attr_state a = _attr_state b
  /\ _attr_fan_speed a = _attr_fan_speed b
  /\ _attr_battery_level a = _attr_battery_level b.

(** a player that has heard that the battery level is "full" *)
Definition poisoned : MqttStateMediaPlayer :=
  set_state_attrs [("battery_level", JStr "full")] living_room.

(** a configuration that overrides one payload and sets QoS and retain *)
Definition bedroom_raw : RawConfig :=
  {| raw_source_list := None;
     raw_supported_features := Some ["play"; "next_track"];
     raw_payloads := [("payload_play", "PLAY!")];
     raw_command_topic := Some "player/command";
     raw_set_volume_topic := None;
     raw_send_command_topic := None;
     raw_state_topic := None;
     raw_retain := Some true;
     raw_qos := 1;
     raw_encoding := "utf-8" |}.

Definition bedroom : MqttStateMediaPlayer :=
  Eval vm_compute in @player_of ref_host bedroom_raw.

(** a configuration that tries to give [turn_on] a payload *)
Definition hallway_raw : RawConfig :=
  {| raw_source_list := None;
     raw_supported_features := None;
     raw_payloads := [("payload_turn_on", "ON")];
     raw_command_topic := Some "player/command";
     raw_set_volume_topic := None;
     raw_send_command_topic := None;
     raw_state_topic := None;
     raw_retain := None;
     raw_qos := 0;
     raw_encoding := "utf-8" |}.

Definition hallway : MqttStateMediaPlayer :=
  Eval vm_compute in @player_of ref_host hallway_raw.

(** * Properties *)

(** ** Dictionaries *)

Module DictFacts.

Lemma get_In {V} (d : Dict.t V) k v :
  Dict.get d k = Some v -> In (k, v) d.
Proof.
  induction d as [|[k' v'] r IH]; simpl; [discriminate|].
  destruct (String.eqb k' k) eqn:E.
  - apply String.eqb_eq in E. intros [= ->]. left. now subst.
  - intros Hg. right. now apply IH.
Qed.

Lemma get_set {V} (d : Dict.t V) k v k2 :
  Dict.get (Dict.set d k v) k2 =
  if String.eqb k k2 then Some v else Dict.get d k2.
Proof.
  induction d as [|[k1 v1] r IH]; simpl; [reflexivity|].
  destruct (String.eqb k1 k) eqn:E1; simpl.
  - apply String.eqb_eq in E1. subst k1.
    destruct (String.eqb k k2); reflexivity.
  - rewrite IH. destruct (String.eqb k1 k2) eqn:E2; [|reflexivity].
    apply String.eqb_eq in E2. subst k2. now rewrite String.eqb_sym, E1.
Qed.

Lemma get_update_other {V} (p d : Dict.t V) k :
  ~ In k (Dict.keys p) -> Dict.get (Dict.update d p) k = Dict.get d k.
Proof.
  unfold Dict.update, Dict.keys.
  revert d. induction p as [|[k0 v0] p IH]; intros d Hn; simpl; [reflexivity|].
  simpl in Hn. rewrite IH by tauto. rewrite get_set.
  destruct (String.eqb k0 k) eqn:E; [|reflexivity].
  apply String.eqb_eq in E. tauto.
Qed.

Lemma get_update {V} (p d : Dict.t V) k v :
  NoDup (Dict.keys p) -> In (k, v) p ->
  Dict.get (Dict.update d p) k = Some v.
Proof.
  revert d. induction p as [|[k0 v0] p IH]; intros d Hnd Hin; [easy|].
  simpl in Hnd. inversion Hnd as [|? ? Hnotin Hnd']; subst.
  destruct Hin as [[= -> ->]|Hin].
  - change (Dict.update d ((k, v) :: p))
      with (Dict.update (Dict.set d k v) p).
    rewrite get_update_other by exact Hnotin.
    now rewrite get_set, String.eqb_refl.
  - change (Dict.update d ((k0, v0) :: p))
      with (Dict.update (Dict.set d k0 v0) p).
    now apply IH.
Qed.

End DictFacts.

(** ** Bit sets of flags *)

Section FlagSets.

Context `{Host}.

Lemma testbit_lor_flags fs n :
  Z.testbit (lor_flags fs) n = existsb (fun f => Z.testbit (flag f) n) fs.
Proof.
  induction fs as [|f fs IH]; simpl.
  - apply Z.bits_0.
  - now rewrite Z.lor_spec, IH.
Qed.

Lemma existsb_same_members {A} (p : A -> bool) (l1 l2 : list A) :
  (forall x, In x l1 <-> In x l2) -> existsb p l1 = existsb p l2.
Proof.
  intros Hm. apply eq_true_iff_eq. rewrite !existsb_exists.
  split; intros [x [Hin Hp]]; exists x; split; auto; now apply Hm.
Qed.

(** the bit set depends on the members only, not on order or repetition *)
Lemma lor_flags_same_members fs gs :
  (forall f, In f fs <-> In f gs) -> lor_flags fs = lor_flags gs.
Proof.
  intros Hm. apply Z.bits_inj. intro n.
  rewrite !testbit_lor_flags. now apply existsb_same_members.
Qed.

Lemma land_lor_flags_0 f fs :
  Z.land (flag f) (lor_flags fs) = 0 <->
  (forall g, In g fs -> Z.land (flag f) (flag g) = 0).
Proof.
  induction fs as [|g fs IH]; simpl.
  - rewrite Z.land_0_r. split; [intros _ g []|reflexivity].
  - rewrite Z.land_lor_distr_r, Z.lor_eq_0_iff, IH. split.
    + intros [Hg Hfs] g' [<-|Hin]; auto.
    + intros Hall. split; auto.
Qed.

(** with distinct non-zero flags, a flag meets a bit set exactly when it is
    one of the flags the set was built from *)
Lemma flag_in_set f fs :
  flags_disjoint -> flags_nonzero ->
  (Z.land (flag f) (lor_flags fs) =? 0) = false <-> In f fs.
Proof.
  intros Hd Hnz. rewrite Z.eqb_neq, land_lor_flags_0. split.
  - intros Hno.
    destruct (in_dec MediaPlayerEntityFeature.eq_dec f fs) as [|Hout]; auto.
    exfalso. apply Hno. intros g Hg. apply Hd. intros ->. now apply Hout.
  - intros Hin Hall. specialize (Hall f Hin).
    rewrite Z.land_diag in Hall. now apply (Hnz f).
Qed.

(** *** The two tables are inverse to each other *)

Lemma STRING_TO_SERVICE_swap :
  STRING_TO_SERVICE = map (fun kv => (snd kv, fst kv)) SERVICE_TO_STRING.
Proof. reflexivity. Qed.

Lemma string_to_service_in_table name f :
  Dict.get STRING_TO_SERVICE name = Some f -> In (f, name) SERVICE_TO_STRING.
Proof.
  intros Hg. apply DictFacts.get_In in Hg.
  rewrite STRING_TO_SERVICE_swap in Hg. apply in_map_iff in Hg.
  destruct Hg as [[g n] [[= -> ->] Hin]]. exact Hin.
Qed.

Lemma service_to_string_back :
  Forall (fun kv => Dict.get STRING_TO_SERVICE (snd kv) = Some (fst kv))
    SERVICE_TO_STRING.
Proof. repeat constructor. Qed.

(** *** What [strings_to_services] returns *)

Lemma strings_to_services_returned table strings services :
  strings_to_services strings table = Returned services ->
  exists fs,
    Forall2 (fun name f => Dict.get table name = Some f) strings fs
    /\ services = lor_flags fs.
Proof.
  revert services.
  induction strings as [|name rest IH]; cbn [strings_to_services];
    intros s Hs.
  - injection Hs as <-. exists []. split; [constructor|reflexivity].
  - destruct (Dict.get table name) as [f|] eqn:Hf; [|discriminate].
    destruct (strings_to_services rest table) as [s'|e] eqn:Hr;
      [|discriminate].
    injection Hs as <-. destruct (IH s' eq_refl) as [fs [Hall ->]].
    exists (f :: fs). split; [now constructor|reflexivity].
Qed.

Lemma strings_to_services_of_entries table (sub : list (t * string)) :
  Forall (fun kv => Dict.get table (snd kv) = Some (fst kv)) sub ->
  strings_to_services (map snd sub) table =
  Returned (lor_flags (map fst sub)).
Proof.
  induction 1 as [|[f n] sub Hhd Htl IH];
    cbn [strings_to_services map fst snd]; [reflexivity|].
  cbn [fst snd] in Hhd. now rewrite Hhd, IH.
Qed.

Lemma strings_to_services_total table strings :
  forallb (Dict.contains table) strings = true ->
  exists services, strings_to_services strings table = Returned services.
Proof.
  induction strings as [|name rest IH];
    cbn [strings_to_services forallb]; intros Hall.
  - now exists 0.
  - apply andb_true_iff in Hall. destruct Hall as [Hname Hrest].
    unfold Dict.contains in Hname.
    destruct (Dict.get table name) as [f|]; [|discriminate].
    destruct (IH Hrest) as [s ->]. now eexists.
Qed.

End FlagSets.

(** ** Round trip between capability sets and their names *)

(** C8.  With flags that are distinct non-zero bits, every capability set
    that [strings_to_services] makes of a list of names is given back by
    [strings_to_services] applied to its [services_to_strings]. *)
Theorem services_strings_round_trip `{Host} (L : list string) (s : Z) :
  flags_disjoint -> flags_nonzero ->
  strings_to_services L STRING_TO_SERVICE = Returned s ->
  strings_to_services (services_to_strings s SERVICE_TO_STRING)
    STRING_TO_SERVICE = Returned s.
Proof.
  intros Hd Hnz HL.
  destruct (strings_to_services_returned _ _ _ HL) as [fs [Hfs ->]].
  unfold services_to_strings.
  set (kept := filter _ SERVICE_TO_STRING).
  assert (Hback : Forall
            (fun kv => Dict.get STRING_TO_SERVICE (snd kv) = Some (fst kv))
            kept).
  { apply Forall_forall. intros kv Hin. apply filter_In in Hin.
    exact (proj1 (Forall_forall _ _) service_to_string_back kv (proj1 Hin)). }
  rewrite (strings_to_services_of_entries _ kept Hback). f_equal.
  apply lor_flags_same_members. intro f. split.
  - intros Hin. apply in_map_iff in Hin.
    destruct Hin as [[g n] [Hg Hin]]. simpl in Hg. subst g.
    apply filter_In in Hin. destruct Hin as [_ Hbit]. simpl in Hbit.
    apply negb_true_iff in Hbit. now apply (flag_in_set f fs Hd Hnz).
  - intros Hin.
    assert (Htab : exists n, In (f, n) SERVICE_TO_STRING).
    { clear - Hfs Hin. induction Hfs as [|name g L' fs' Hg Hrest IH].
      - destruct Hin.
      - destruct Hin as [->|Hin]; [|now apply IH].
        exists name. now apply string_to_service_in_table. }
    destruct Htab as [n Hn]. apply in_map_iff. exists (f, n).
    split; [reflexivity|]. apply filter_In. split; [exact Hn|]. simpl.
    apply negb_true_iff. now apply (flag_in_set f fs Hd Hnz).
Qed.

Lemma ha_flag_disjoint : @flags_disjoint ref_host.
Proof.
  intros f g Hfg.
  destruct f, g; try reflexivity; exfalso; apply Hfg; reflexivity.
Qed.

Lemma ha_flag_nonzero : @flags_nonzero ref_host.
Proof. intros f. destruct f; discriminate. Qed.

Lemma services_strings_round_trip_witness :
  @strings_to_services ref_host ["play"; "pause"; "play"; "select_source"]
    STRING_TO_SERVICE = Returned 18433
  /\ @strings_to_services ref_host
       (@services_to_strings ref_host 18433 SERVICE_TO_STRING)
       STRING_TO_SERVICE = Returned 18433.
Proof.
  split; [reflexivity|].
  apply (@services_strings_round_trip ref_host
           ["play"; "pause"; "play"; "select_source"] 18433
           ha_flag_disjoint ha_flag_nonzero).
  reflexivity.
Defined.

(** ** Outbound commands *)

(** what a run of [_async_publish_command] comes to *)
Lemma _async_publish_command_run feature self :
  _async_publish_command feature self =
  match _command_topic self with
  | None => (Returned tt, self, [])
  | Some topic =>
      match feature_get _FEATURE_PAYLOADS feature with
      | None => (Raised (KeyError "feature"), self, [])
      | Some key =>
          match Dict.get (_payloads self) key with
          | None => (Raised (KeyError key), self, [])
          | Some payload =>
              (Returned tt, self,
               [Publish topic payload (CONF_QOS (_config self))
                  (CONF_RETAIN (_config self)) (CONF_ENCODING (_config self));
                WriteHaState])
          end
      end
  end.
Proof.
  unfold _async_publish_command, bind, get_self, ret, raise, async_publish,
    async_write_ha_state, emit.
  destruct (_command_topic self); [|reflexivity].
  destruct (feature_get _FEATURE_PAYLOADS feature); [|reflexivity].
  destruct (Dict.get (_payloads self) _); reflexivity.
Qed.

Lemma _async_publish_command_entity feature self :
  entity (_async_publish_command feature self) = self.
Proof.
  rewrite _async_publish_command_run.
  destruct (_command_topic self); [|reflexivity].
  destruct (feature_get _FEATURE_PAYLOADS feature); [|reflexivity].
  destruct (Dict.get (_payloads self) _); reflexivity.
Qed.

Lemma _async_publish_command_unwired feature self :
  _command_topic self = None ->
  _async_publish_command feature self = (Returned tt, self, []).
Proof. intros Hc. now rewrite _async_publish_command_run, Hc. Qed.

Lemma async_select_source_run source self :
  async_select_source source self =
  if known_source self source
  then _async_publish_command SELECT_SOURCE self
  else (Raised (ValueError ("Unknown input source: " ++ source ++ ".")),
        self, []).
Proof.
  unfold async_select_source, bind, get_self, raise.
  destruct (known_source self source); [|reflexivity].
  destruct (_async_publish_command SELECT_SOURCE self) as [[r s] out].
  reflexivity.
Qed.


Lemma async_send_command_run `{Host} command params self :
  async_send_command command params self =
  match _send_command_topic self with
  | None => (Returned tt, self, [])
  | Some topic =>
      if Z.land (_attr_supported_features self) (flag SEND_COMMAND) =? 0
      then (Returned tt, self, [])
      else
        (Returned tt, self,
         [Publish topic
            (Some match params with
                  | Some (JDict params) =>
                      json_dumps
                        (JDict (Dict.update [("command", JStr command)]
                                  params))
                  | _ => command
                  end)
            (CONF_QOS (_config self)) (CONF_RETAIN (_config self))
            (CONF_ENCODING (_config self))])
  end.
Proof.
  unfold async_send_command, bind, get_self, ret, async_publish, emit.
  destruct (_send_command_topic self); [|reflexivity].
  destruct (Z.land _ _ =? 0); reflexivity.
Qed.

(** no method assigns to the entity *)
Lemma invoke_entity `{Host} i self : entity (invoke i self) = self.
Proof.
  destruct i; simpl;
    unfold async_turn_off, async_turn_on, async_set_volume_level,
      async_mute_volume, async_pause, async_media_play, async_media_pause,
      async_media_previous_track, async_media_next_track;
    try apply _async_publish_command_entity.
  - destruct mute; apply _async_publish_command_entity.
  - rewrite async_select_source_run.
    destruct (known_source self source);
      [apply _async_publish_command_entity|reflexivity].
  - rewrite async_send_command_run.
    destruct (_send_command_topic self); [|reflexivity].
    destruct (Z.land _ _ =? 0); reflexivity.
Qed.

(** C9.  Every command method leaves the device state as it found it: the
    playback status, the extra attributes, the fan speed and the battery
    level are the same after the call, whatever it published; the same holds
    for [_async_publish_command] with any feature. *)
Theorem invoke_preserves_device_state `{Host} (i : invocation)
  (self : MqttStateMediaPlayer) :
  let self' := entity (invoke i self) in
  (_attr_state self' = _attr_state self
   /\ _state_attrs self' = _state_attrs self
   /\ _attr_fan_speed self' = _attr_fan_speed self
   /\ _attr_battery_level self' = _attr_battery_level self)
  /\ (forall feature, entity (_async_publish_command feature self) = self).
Proof.
  cbv zeta. rewrite invoke_entity.
  split; [repeat split|intro feature; apply _async_publish_command_entity].
Qed.

(** C7, as the code has it.  Without a command topic, a method of the
    command topic publishes nothing and leaves the entity alone; it returns
    normally, except [async_select_source] with a source outside the source
    list, which raises its [ValueError] all the same. *)
Theorem unwired_command_is_silent `{Host} (i : invocation)
  (self : MqttStateMediaPlayer) :
  _command_topic self = None ->
  on_command_topic i = true ->
  effects (invoke i self) = []
  /\ entity (invoke i self) = self
  /\ result (invoke i self) =
     match i with
     | SelectSource source =>
         if known_source self source then Returned tt
         else Raised (ValueError ("Unknown input source: " ++ source ++ "."))
     | _ => Returned tt
     end.
Proof.
  intros Hc Hi.
  destruct i; try discriminate Hi; simpl;
    unfold async_turn_off, async_turn_on, async_set_volume_level,
      async_mute_volume, async_pause, async_media_play, async_media_pause,
      async_media_previous_track, async_media_next_track;
    try (rewrite (_async_publish_command_unwired _ _ Hc); now repeat split).
  - destruct mute;
      rewrite (_async_publish_command_unwired _ _ Hc); now repeat split.
  - rewrite async_select_source_run.
    destruct (known_source self source).
    + rewrite (_async_publish_command_unwired _ _ Hc). now repeat split.
    + now repeat split.
Qed.

Lemma unwired_command_is_silent_witness :
  _command_topic kitchen = None
  /\ effects (@invoke ref_host TurnOn kitchen) = []
  /\ result (@invoke ref_host TurnOn kitchen) = Returned tt.
Proof.
  split; [reflexivity|].
  destruct (@unwired_command_is_silent ref_host TurnOn kitchen
              eq_refl eq_refl) as [Hout [_ Hres]].
  split; [exact Hout|exact Hres].
Defined.

(** C7 as the claim words it fails: with no command topic,
    [async_select_source] with an unknown source still raises. *)
Lemma unwired_select_source_raises :
  _command_topic kitchen = None
  /\ result (@invoke ref_host (SelectSource "Cassette") kitchen)
     = Raised (ValueError "Unknown input source: Cassette.").
Proof. split; reflexivity. Qed.




(** C1, the code at the input where it departs from the claim.  The kitchen
    player has a volume-set topic and no command topic:
    [async_set_volume_level] publishes nothing.  The living-room player has
    both: the one publish goes to the command topic, and its payload is the
    configured volume-set payload, absent here, for either volume. *)
Theorem set_volume_level_ignores_volume_topic :
  (_set_volume_topic kitchen = Some "player/volume/set"
   /\ _command_topic kitchen = None
   /\ async_set_volume_level (PyFloat 5 (-1)) kitchen
      = (Returned tt, kitchen, []))
  /\ (_set_volume_topic living_room = Some "player/volume/set"
      /\ _command_topic living_room = Some "player/command"
      /\ async_set_volume_level (PyFloat 5 (-1)) living_room
         = (Returned tt, living_room,
            [Publish "player/command" None 0 false "utf-8"; WriteHaState])
      /\ async_set_volume_level (PyFloat 1 0) living_room
         = async_set_volume_level (PyFloat 5 (-1)) living_room).
Proof. repeat split. Qed.

(** C6.  With a send-command topic and the [SEND_COMMAND] bit among the
    supported features, [async_send_command "foo" {"bar": 1}] publishes one
    message on that topic, the JSON text of the object with [command] = "foo"
    and [bar] = 1; with parameters that are not a dictionary it publishes
    the command string itself. *)
Theorem send_command_publishes `{Host} (self : MqttStateMediaPlayer)
  (topic : string) :
  _send_command_topic self = Some topic ->
  Z.land (_attr_supported_features self) (flag SEND_COMMAND) <> 0 ->
  async_send_command "foo" (Some (JDict [("bar", JInt 1)])) self =
  (Returned tt, self,
   [Publish topic
      (Some (json_dumps (JDict [("command", JStr "foo"); ("bar", JInt 1)])))
      (CONF_QOS (_config self)) (CONF_RETAIN (_config self))
      (CONF_ENCODING (_config self))])
  /\ (forall command params,
        (forall d, params <> Some (JDict d)) ->
        async_send_command command params self =
        (Returned tt, self,
         [Publish topic (Some command)
            (CONF_QOS (_config self)) (CONF_RETAIN (_config self))
            (CONF_ENCODING (_config self))])).
Proof.
  intros Ht Hbit. apply Z.eqb_neq in Hbit. split.
  - now rewrite async_send_command_run, Ht, Hbit.
  - intros command params Hnd. rewrite async_send_command_run, Ht, Hbit.
    destruct params as [[| | | | | |d]|]; try reflexivity.
    now destruct (Hnd d).
Qed.

Lemma send_command_publishes_witness :
  _send_command_topic studio = Some "player/send"
  /\ Z.land (_attr_supported_features studio) (ha_flag SEND_COMMAND) <> 0
  /\ @async_send_command ref_host "foo" (Some (JDict [("bar", JInt 1)]))
       studio =
     (Returned tt, studio,
      [Publish "player/send"
         (Some (RefJson.dumps
                  (JDict [("command", JStr "foo"); ("bar", JInt 1)])))
         0 false "utf-8"])
  /\ @async_send_command ref_host "foo" None studio =
     (Returned tt, studio,
      [Publish "player/send" (Some "foo") 0 false "utf-8"]).
Proof.
  assert (Hbit : Z.land (_attr_supported_features studio)
                   (ha_flag SEND_COMMAND) <> 0) by discriminate.
  destruct (@send_command_publishes ref_host studio "player/send"
              eq_refl Hbit) as [Hdict Hraw].
  split; [reflexivity|]. split; [exact Hbit|]. split; [exact Hdict|].
  apply (Hraw "foo" None). discriminate.
Defined.

(** the text on the wire, and what the reference decoder reads back *)
Example send_command_wire_text :
  RefJson.dumps (JDict [("command", JStr "foo"); ("bar", JInt 1)])
  = "{" ++ RefJson.quoted "command" ++ ":" ++ RefJson.quoted "foo" ++ ","
        ++ RefJson.quoted "bar" ++ ":1}"
  /\ RefJson.loads
       (RefJson.dumps (JDict [("command", JStr "foo"); ("bar", JInt 1)]))
     = Some (JDict [("command", JStr "foo"); ("bar", JInt 1)]).
Proof. split; reflexivity. Qed.

(** ** Accepted configurations *)

Section Accepted.

Context `{Host}.

Lemma validate_features policy raw config :
  validate policy raw = Returned config ->
  forallb (Dict.contains STRING_TO_SERVICE) (CONF_SUPPORTED_FEATURES config)
  = true.
Proof.
  unfold validate. cbv zeta.
  destruct policy;
    [destruct (existsb _ (raw_payloads raw)); [discriminate|]|];
    destruct (forallb (Dict.contains STRING_TO_SERVICE) _) eqn:Hall;
    try discriminate; intros [= <-]; exact Hall.
Qed.

Lemma validate_payloads policy raw config :
  validate policy raw = Returned config ->
  conf_payloads config =
  map (fun kv => (fst kv,
                  default (Dict.get (raw_payloads raw) (fst kv)) (snd kv)))
    schema_payloads.
Proof.
  unfold validate. cbv zeta.
  destruct policy;
    [destruct (existsb _ (raw_payloads raw)); [discriminate|]|];
    destruct (forallb (Dict.contains STRING_TO_SERVICE) _);
    try discriminate; intros [= <-]; reflexivity.
Qed.

Lemma __init___run config services :
  strings_to_services (CONF_SUPPORTED_FEATURES config) STRING_TO_SERVICE
  = Returned services ->
  __init__ config =
  (Returned tt,
   assign_from_config config
     (Z.lor (flag MediaPlayerEntityFeature.STATE) services) (blank config),
   []).
Proof.
  intros Hs. unfold __init__, _setup_from_config, bind, lift, modify.
  now rewrite Hs.
Qed.

(** a configuration that the schema accepts sets the player up *)
Lemma accepted_sets_up policy raw config :
  validate policy raw = Returned config ->
  exists fs,
    Forall (fun f => exists name, In (f, name) SERVICE_TO_STRING) fs
    /\ __init__ config =
       (Returned tt,
        assign_from_config config
          (Z.lor (flag MediaPlayerEntityFeature.STATE) (lor_flags fs))
          (blank config),
        []).
Proof.
  intros Hv. apply validate_features in Hv.
  destruct (strings_to_services_total _ _ Hv) as [services Hs].
  destruct (strings_to_services_returned _ _ _ Hs) as [fs [Hfs ->]].
  exists fs. split; [|now apply __init___run].
  clear - Hfs. induction Hfs as [|name f L fs Hf _ IH]; constructor; auto.
  exists name. now apply string_to_service_in_table.
Qed.

Lemma table_feature_not_SEND_COMMAND f name :
  In (f, name) SERVICE_TO_STRING -> f <> SEND_COMMAND.
Proof.
  intros Hin ->. cbv [SERVICE_TO_STRING In] in Hin.
  repeat (destruct Hin as [Hin|Hin]; [discriminate Hin|]). exact Hin.
Qed.

Lemma get_map_values {V W} (g : string * V -> W) (d : Dict.t V) k :
  Dict.get (map (fun kv => (fst kv, g kv)) d) k =
  match Dict.get d k with
  | Some v => Some (g (k, v))
  | None => None
  end.
Proof.
  induction d as [|[k' v'] r IH]; simpl; [reflexivity|].
  destruct (String.eqb k' k) eqn:E; [|exact IH].
  apply String.eqb_eq in E. now subst.
Qed.

Lemma get_fold_set_other {V} (f : string -> V) keys init k :
  ~ In k keys ->
  Dict.get (fold_left (fun acc key => Dict.set acc key (f key)) keys init) k
  = Dict.get init k.
Proof.
  revert init. induction keys as [|k0 keys IH]; intros init Hn; simpl;
    [reflexivity|].
  simpl in Hn. rewrite IH by tauto. rewrite DictFacts.get_set.
  destruct (String.eqb k0 k) eqn:E; [|reflexivity].
  apply String.eqb_eq in E. tauto.
Qed.

Lemma get_fold_set {V} (f : string -> V) keys init k :
  In k keys ->
  Dict.get (fold_left (fun acc key => Dict.set acc key (f key)) keys init) k
  = Some (f k).
Proof.
  revert init. induction keys as [|k0 keys IH]; intros init Hin; [easy|].
  simpl. destruct (in_dec string_dec k keys) as [Hk|Hk]; [now apply IH|].
  destruct Hin as [->|Hin]; [|contradiction].
  rewrite get_fold_set_other by exact Hk.
  now rewrite DictFacts.get_set, String.eqb_refl.
Qed.

Lemma feature_key_in_payload_keys feature key :
  feature_get _FEATURE_PAYLOADS feature = Some key -> In key payload_keys.
Proof.
  destruct feature; intros [= <-]; cbv [payload_keys In];
    repeat (try (left; reflexivity); right).
Qed.

(** after the set-up, [_payloads] holds [config.get(key)] for the key of
    every feature of [_FEATURE_PAYLOADS] *)
Lemma _payloads_after_setup config supported self feature key :
  feature_get _FEATURE_PAYLOADS feature = Some key ->
  Dict.get (_payloads (assign_from_config config supported self)) key
  = Some (Dict.get (conf_payloads config) key).
Proof.
  intros Hk. cbn [assign_from_config _payloads].
  apply (get_fold_set (fun key => Dict.get (conf_payloads config) key)).
  now apply (feature_key_in_payload_keys feature).
Qed.

End Accepted.

(** C10.  With flags that share no bit, a configuration that the schema
    accepts never gives the player the [SEND_COMMAND] bit: the name
    "send_command" is not a key of [STRING_TO_SERVICE], the set-up succeeds
    with the bit clear, and from then on [async_send_command] returns without
    a host call, whatever its arguments and whatever the topics. *)
Theorem send_command_never_enabled `{Host} (policy : extra)
  (raw : RawConfig) (config : ConfigType) :
  flags_disjoint ->
  validate policy raw = Returned config ->
  Dict.contains STRING_TO_SERVICE "send_command" = false
  /\ result (__init__ config) = Returned tt
  /\ Z.land (_attr_supported_features (entity (__init__ config)))
       (flag SEND_COMMAND) = 0
  /\ (forall self command params,
        _attr_supported_features self
        = _attr_supported_features (entity (__init__ config)) ->
        async_send_command command params self = (Returned tt, self, [])).
Proof.
  intros Hd Hv.
  destruct (accepted_sets_up _ _ _ Hv) as [fs [Htab Hinit]].
  assert (Hbit : Z.land (_attr_supported_features (entity (__init__ config)))
                   (flag SEND_COMMAND) = 0).
  { rewrite Hinit. cbn [entity fst snd assign_from_config
                          _attr_supported_features].
    rewrite Z.land_comm, Z.land_lor_distr_r, Z.lor_eq_0_iff. split.
    - apply Hd. discriminate.
    - apply land_lor_flags_0. intros g Hg. apply Hd.
      destruct (proj1 (Forall_forall _ _) Htab g Hg) as [name Hin].
      intros Heq. now apply (table_feature_not_SEND_COMMAND g name Hin). }
  split; [reflexivity|]. split; [now rewrite Hinit|]. split; [exact Hbit|].
  intros self command params Hsame.
  rewrite async_send_command_run, Hsame, Hbit.
  now destruct (_send_command_topic self).
Qed.

Lemma send_command_never_enabled_witness :
  @validate ref_host REMOVE_EXTRA living_room_raw
  = Returned (_config living_room)
  /\ Z.land (_attr_supported_features living_room) (ha_flag SEND_COMMAND) = 0
  /\ _send_command_topic living_room = Some "player/send"
  /\ @async_send_command ref_host "foo" (Some (JDict [("bar", JInt 1)]))
       living_room = (Returned tt, living_room, []).
Proof.
  destruct (@send_command_never_enabled ref_host REMOVE_EXTRA living_room_raw
              (_config living_room) ha_flag_disjoint eq_refl)
    as [_ [_ [Hbit Hsend]]].
  split; [reflexivity|]. split; [exact Hbit|]. split; [reflexivity|].
  apply Hsend. reflexivity.
Defined.

(** ** Capabilities without a payload *)

(** the default configuration gives [turn_on] no payload, and
    [async_turn_on] publishes the absent payload on the command topic *)
Lemma turn_on_publishes_None :
  Dict.get (_payloads living_room) CONF_PAYLOAD_TURN_ON = Some None
  /\ publishes (effects (async_turn_on living_room))
     = [Publish "player/command" None 0 false "utf-8"].
Proof. split; reflexivity. Qed.

(** X23.  For a configuration that the schema accepts and a feature whose
    payload key the schema does not declare (so that it has neither a
    default nor an override), [_async_publish_command] is a no-op when
    there is no command topic, and otherwise publishes the absent payload
    [None] on the command topic, once, and asks for a state write. *)
Theorem absent_payload_is_published `{Host} (policy : extra)
  (raw : RawConfig) (config : ConfigType)
  (feature : MediaPlayerEntityFeature.t) (key : string) :
  validate policy raw = Returned config ->
  feature_get _FEATURE_PAYLOADS feature = Some key ->
  Dict.get schema_payloads key = None ->
  let self := entity (__init__ config) in
  _async_publish_command feature self =
  match CONF_COMMAND_TOPIC config with
  | None => (Returned tt, self, [])
  | Some topic =>
      (Returned tt, self,
       [Publish topic None (CONF_QOS config) (CONF_RETAIN config)
          (CONF_ENCODING config);
        WriteHaState])
  end.
Proof.
  intros Hv Hk Hnone.
  destruct (accepted_sets_up _ _ _ Hv) as [fs [_ Hinit]].
  rewrite Hinit. cbn [entity fst snd]. cbv zeta.
  rewrite _async_publish_command_run, Hk.
  rewrite (_payloads_after_setup _ _ _ feature key Hk).
  rewrite (validate_payloads _ _ _ Hv), get_map_values, Hnone.
  reflexivity.
Qed.

Lemma absent_payload_is_published_witness :
  @validate ref_host REMOVE_EXTRA living_room_raw
  = Returned (_config living_room)
  /\ feature_get _FEATURE_PAYLOADS TURN_ON = Some CONF_PAYLOAD_TURN_ON
  /\ Dict.get schema_payloads CONF_PAYLOAD_TURN_ON = None
  /\ _async_publish_command TURN_ON
       (entity (@__init__ ref_host (_config living_room)))
     = (Returned tt, entity (@__init__ ref_host (_config living_room)),
        [Publish "player/command" None 0 false "utf-8"; WriteHaState]).
Proof.
  split; [reflexivity|]. split; [reflexivity|]. split; [reflexivity|].
  exact (@absent_payload_is_published ref_host REMOVE_EXTRA living_room_raw
           (_config living_room) TURN_ON CONF_PAYLOAD_TURN_ON
           eq_refl eq_refl eq_refl).
Defined.

(** C5, the code at the input where it departs from the claim.  The
    default configuration enables [turn_on] and [turn_off], for which the
    schema declares no payload key: with a command topic, [async_turn_on]
    and [async_turn_off] publish the absent payload [None] on it.  The key
    that the set-up reads for [turn_on] cannot be configured either: the
    platform schema refuses a configuration that names it, the discovery
    schema removes it, and the player still publishes [None]. *)
Theorem turn_on_payload_cannot_be_configured :
  (In "turn_on" (CONF_SUPPORTED_FEATURES (_config living_room))
   /\ In "turn_off" (CONF_SUPPORTED_FEATURES (_config living_room))
   /\ async_turn_on living_room
      = (Returned tt, living_room,
         [Publish "player/command" None 0 false "utf-8"; WriteHaState])
   /\ async_turn_off living_room
      = (Returned tt, living_room,
         [Publish "player/command" None 0 false "utf-8"; WriteHaState]))
  /\ (Dict.get (raw_payloads hallway_raw) CONF_PAYLOAD_TURN_ON = Some "ON"
      /\ @PLATFORM_SCHEMA_STATE_MODERN ref_host hallway_raw
         = Raised (Invalid "extra keys not allowed")
      /\ @DISCOVERY_SCHEMA_STATE ref_host hallway_raw
         = Returned (_config hallway)
      /\ async_turn_on hallway
         = (Returned tt, hallway,
            [Publish "player/command" None 0 false "utf-8"; WriteHaState])).
Proof.
  split.
  - split; [cbn; tauto|]. split; [cbn; tauto|]. split; reflexivity.
  - repeat split.
Qed.

(** ** Inbound status messages *)

(** [_update_state_attributes] merges the payload before anything can go
    wrong, and never assigns the playback status *)
Lemma _update_state_attributes_entity payload self :
  let self' := entity (_update_state_attributes payload self) in
  _attr_state self' = _attr_state self
  /\ _state_attrs self' = Dict.update (_state_attrs self) payload.
Proof.
  unfold _update_state_attributes, bind, modify, get_self, lift.
  cbv zeta. cbn [fst snd].
  destruct (py_min 100 _) as [low|e]; [|split; reflexivity].
  destruct (py_max 0 low) as [level|e]; split; reflexivity.
Qed.

Lemma not_a_possible_state s :
  ~ In s [STATE_ON; STATE_OFF; STATE_PLAYING; STATE_PAUSED] ->
  Dict.contains POSSIBLE_STATES s = false.
Proof.
  intros Hn. unfold Dict.contains, POSSIBLE_STATES. cbn [Dict.get].
  destruct (String.eqb STATE_ON s) eqn:E1;
    [apply String.eqb_eq in E1; exfalso; apply Hn; subst; simpl; tauto|].
  destruct (String.eqb STATE_OFF s) eqn:E2;
    [apply String.eqb_eq in E2; exfalso; apply Hn; subst; simpl; tauto|].
  destruct (String.eqb STATE_PLAYING s) eqn:E3;
    [apply String.eqb_eq in E3; exfalso; apply Hn; subst; simpl; tauto|].
  destruct (String.eqb STATE_PAUSED s) eqn:E4;
    [apply String.eqb_eq in E4; exfalso; apply Hn; subst; simpl; tauto|].
  reflexivity.
Qed.

(** a message whose [state] is an unknown string goes to
    [_update_state_attributes] whole *)
Lemma state_message_received_unknown `{Host} raw payload s self :
  json_loads raw = Some (JDict payload) ->
  Dict.get payload STATE = Some (JStr s) ->
  Dict.contains POSSIBLE_STATES s = false ->
  state_message_received raw self = _update_state_attributes payload self.
Proof.
  intros Hraw Hstate Hs.
  unfold state_message_received, json_loads_object.
  rewrite Hraw. unfold bind at 1. unfold lift at 1. cbv beta iota.
  rewrite Hstate. unfold py_in. rewrite Hs.
  unfold bind, lift, ret. cbv beta iota. cbn [orb].
  destruct (_update_state_attributes payload self) as [[r s'] out].
  reflexivity.
Qed.

(** a known status is assigned and taken out of the payload; the fan speed
    is read back, the battery level is held between 0 and 100 *)
Example playing_message :
  let raw := RefJson.dumps
               (JDict [("state", JStr "playing"); ("fan_speed", JInt 3)]) in
  let self' := entity (@state_message_received ref_host raw living_room) in
  _attr_state self' = Some "playing"
  /\ _state_attrs self' = [("fan_speed", JInt 3)]
  /\ _attr_fan_speed self' = Some (JInt 3)
  /\ _attr_battery_level self' = Some (JInt 0).
Proof. repeat split. Qed.

Example battery_message :
  let raw := RefJson.dumps (JDict [("battery_level", JInt 150)]) in
  let self' := entity (@state_message_received ref_host raw living_room) in
  _attr_state self' = _attr_state living_room
  /\ _attr_battery_level self' = Some (JInt 100).
Proof. repeat split. Qed.

Example null_state_message :
  let raw := RefJson.dumps (JDict [("state", JNull)]) in
  let before := set_attr_state (Some "on") living_room in
  let self' := entity (@state_message_received ref_host raw before) in
  _attr_state self' = None /\ _state_attrs self' = [].
Proof. repeat split. Qed.

(** C2 as the claim words it fails: the unknown [state] lands among the
    extra attributes. *)
Lemma bogus_state_is_kept :
  RefJson.loads bogus_message
  = Some (JDict [("state", JStr "bogus"); ("volume", JInt 7)])
  /\ Dict.get
       (_state_attrs
          (entity (@state_message_received ref_host bogus_message
                     living_room)))
       "state"
     = Some (JStr "bogus").
Proof. split; reflexivity. Qed.

(** C2, as the code has it.  A status message that is a JSON object whose
    [state] is a string outside "on", "off", "playing", "paused" leaves the
    playback status as it was and is merged whole into the extra attributes:
    every key of the payload, [state] with its unknown value included, is
    found there afterwards. *)
Theorem unknown_state_is_merged `{Host} (raw : string)
  (payload : Dict.t json) (s : string) (self : MqttStateMediaPlayer) :
  json_loads raw = Some (JDict payload) ->
  Dict.get payload STATE = Some (JStr s) ->
  ~ In s [STATE_ON; STATE_OFF; STATE_PLAYING; STATE_PAUSED] ->
  let self' := entity (state_message_received raw self) in
  _attr_state self' = _attr_state self
  /\ _state_attrs self' = Dict.update (_state_attrs self) payload
  /\ (NoDup (Dict.keys payload) ->
      Dict.get (_state_attrs self') STATE = Some (JStr s)
      /\ forall k v, In (k, v) payload ->
                     Dict.get (_state_attrs self') k = Some v).
Proof.
  intros Hraw Hstate Hs. cbv zeta.
  rewrite (state_message_received_unknown raw payload s self Hraw Hstate
             (not_a_possible_state s Hs)).
  destruct (_update_state_attributes_entity payload self) as [Hst Hattrs].
  split; [exact Hst|]. split; [exact Hattrs|].
  intros Hnd. rewrite Hattrs. split.
  - apply DictFacts.get_update; [exact Hnd|].
    now apply DictFacts.get_In.
  - intros k v Hin. now apply DictFacts.get_update.
Qed.

Lemma unknown_state_is_merged_witness :
  let self' := entity (@state_message_received ref_host bogus_message
                         living_room) in
  _attr_state self' = _attr_state living_room
  /\ _state_attrs self'
     = Dict.update (_state_attrs living_room)
         [("state", JStr "bogus"); ("volume", JInt 7)]
  /\ Dict.get (_state_attrs self') STATE = Some (JStr "bogus")
  /\ Dict.get (_state_attrs self') "volume" = Some (JInt 7).
Proof.
  assert (Hs : ~ In "bogus" [STATE_ON; STATE_OFF; STATE_PLAYING; STATE_PAUSED]).
  { intros [Hx|[Hx|[Hx|[Hx|[]]]]]; discriminate Hx. }
  assert (Hnd : NoDup (Dict.keys [("state", JStr "bogus");
                                  ("volume", JInt 7)])).
  { unfold Dict.keys. cbn [map fst].
    constructor; [intros [Hx|[]]; discriminate Hx|].
    constructor; [intros []|constructor]. }
  destruct (@unknown_state_is_merged ref_host bogus_message
              [("state", JStr "bogus"); ("volume", JInt 7)] "bogus"
              living_room eq_refl eq_refl Hs) as [Hst [Hattrs Hkeys]].
  destruct (Hkeys Hnd) as [Hstate Hall].
  split; [exact Hst|]. split; [exact Hattrs|]. split; [exact Hstate|].
  apply Hall. right. left. reflexivity.
Defined.

(** the body of the handler on two malformed payloads: it does not
    return, the exception of the decoder leaves it *)
Lemma malformed_message_raises :
  @state_message_received ref_host "not json" living_room
  = (Raised JSONDecodeError, living_room, [])
  /\ @state_message_received ref_host "[1, 2]" living_room
     = (Raised (ValueError
                  "Expected JSON to be parsed as a dict got <class 'list'>"),
        living_room, []).
Proof. split; reflexivity. Qed.

(** X22.  For a payload that the decoder refuses or that decodes to
    something other than an object, the body of the handler raises the
    decoder's exception and has touched nothing by then: the entity is as
    it was and no host call was made. *)
Theorem undecodable_message_raises `{Host} (raw : string)
  (self : MqttStateMediaPlayer) :
  (json_loads raw = None
   \/ exists value, json_loads raw = Some value
                    /\ forall d, value <> JDict d) ->
  exists e,
    state_message_received raw self = (Raised e, self, [])
    /\ (e = JSONDecodeError \/ exists msg, e = ValueError msg).
Proof.
  intros Hbad. unfold state_message_received, json_loads_object.
  unfold bind at 1. unfold lift at 1.
  destruct Hbad as [Hnone|[value [Hval Hnd]]].
  - rewrite Hnone. exists JSONDecodeError. split; [reflexivity|now left].
  - rewrite Hval.
    destruct value as [| | | | | |d];
      try (eexists; split; [reflexivity|right; eexists; reflexivity]).
    now destruct (Hnd d).
Qed.

Lemma undecodable_message_raises_witness :
  RefJson.loads "not json" = None
  /\ exists e,
       @state_message_received ref_host "not json" living_room
       = (Raised e, living_room, [])
       /\ (e = JSONDecodeError \/ exists msg, e = ValueError msg).
Proof.
  split; [reflexivity|].
  apply (@undecodable_message_raises ref_host "not json" living_room).
  left. reflexivity.
Defined.

(** * Further properties of the module *)

(** ** More on dictionaries *)

Module DictMore.

Lemma set_same {V} (d : Dict.t V) k v :
  Dict.get d k = Some v -> Dict.set d k v = d.
Proof.
  induction d as [|[k' v'] r IH]; simpl; [discriminate|].
  destruct (String.eqb k' k) eqn:E.
  - intros [= ->]. reflexivity.
  - intros Hg. now rewrite IH.
Qed.

Lemma update_fixed {V} (p d : Dict.t V) :
  (forall k v, In (k, v) p -> Dict.get d k = Some v) ->
  Dict.update d p = d.
Proof.
  unfold Dict.update.
  induction p as [|[k v] p IH]; intros Hall; simpl; [reflexivity|].
  rewrite set_same by (apply Hall; now left).
  apply IH. intros k' v' Hin. apply Hall. now right.
Qed.

(** merging the same payload twice is merging it once *)
Lemma update_idem {V} (p d : Dict.t V) :
  NoDup (Dict.keys p) ->
  Dict.update (Dict.update d p) p = Dict.update d p.
Proof.
  intros Hnd. apply update_fixed. intros k v Hin.
  now apply DictFacts.get_update.
Qed.

Lemma In_del {V} (d : Dict.t V) k k' v :
  In (k', v) (Dict.del d k) -> In (k', v) d.
Proof.
  induction d as [|[k0 v0] r IH]; simpl; [tauto|].
  destruct (String.eqb k0 k); simpl; intuition.
Qed.

Lemma keys_del_subset {V} (d : Dict.t V) k k' :
  In k' (Dict.keys (Dict.del d k)) -> In k' (Dict.keys d).
Proof.
  unfold Dict.keys. intros Hin. apply in_map_iff in Hin.
  destruct Hin as [[k0 v0] [<- Hin]]. apply in_map_iff.
  exists (k0, v0). split; [reflexivity|]. now apply (In_del d k).
Qed.

Lemma NoDup_del {V} (d : Dict.t V) k :
  NoDup (Dict.keys d) -> NoDup (Dict.keys (Dict.del d k)).
Proof.
  induction d as [|[k0 v0] r IH]; simpl; intros Hnd; [constructor|].
  inversion Hnd as [|? ? Hout Hnd']; subst.
  destruct (String.eqb k0 k); [exact Hnd'|].
  simpl. constructor; [|now apply IH].
  intros Hin. apply Hout. now apply (keys_del_subset r k).
Qed.

(** with distinct keys, the deleted key is gone *)
Lemma del_removes {V} (d : Dict.t V) k :
  NoDup (Dict.keys d) -> ~ In k (Dict.keys (Dict.del d k)).
Proof.
  induction d as [|[k0 v0] r IH]; simpl; intros Hnd; [tauto|].
  inversion Hnd as [|? ? Hout Hnd']; subst.
  destruct (String.eqb k0 k) eqn:E.
  - apply String.eqb_eq in E. now subst.
  - simpl. intros [Heq|Hin].
    + subst. now rewrite String.eqb_refl in E.
    + now apply (IH Hnd').
Qed.

Lemma get_None_not_key {V} (d : Dict.t V) k :
  Dict.get d k = None <-> ~ In k (Dict.keys d).
Proof.
  induction d as [|[k0 v0] r IH]; simpl; [tauto|].
  destruct (String.eqb k0 k) eqn:E.
  - apply String.eqb_eq in E. subst. split; [discriminate|tauto].
  - rewrite IH. split; [|tauto]. intros Hn [Heq|Hin]; [|tauto].
    subst. now rewrite String.eqb_refl in E.
Qed.

End DictMore.

(** ** The runs of the inbound handler *)

(** what a run of [_update_state_attributes] comes to *)
Lemma _update_state_attributes_run payload self :
  let attrs := Dict.update (_state_attrs self) payload in
  let merged :=
    set_attr_fan_speed (default (Dict.get attrs FAN_SPEED) (JInt 0))
      (set_state_attrs attrs self) in
  _update_state_attributes payload self =
  match py_min 100 (default (Dict.get attrs BATTERY) (JInt 0)) with
  | Raised e => (Raised e, merged, [])
  | Returned low =>
      match py_max 0 low with
      | Raised e => (Raised e, merged, [])
      | Returned level =>
          (Returned tt, set_attr_battery_level level merged, [])
      end
  end.
Proof.
  cbv zeta.
  unfold _update_state_attributes, bind, modify, get_self, lift.
  cbn [fst snd _state_attrs set_state_attrs set_attr_fan_speed].
  destruct (py_min 100 _) as [low|e]; [|reflexivity].
  destruct (py_max 0 low) as [level|e]; reflexivity.
Qed.

Lemma state_message_received_absent `{Host} raw payload self :
  json_loads raw = Some (JDict payload) ->
  Dict.get payload STATE = None ->
  state_message_received raw self = _update_state_attributes payload self.
Proof.
  intros Hraw Hstate. unfold state_message_received, json_loads_object.
  rewrite Hraw. unfold bind at 1. unfold lift at 1. cbv beta iota.
  rewrite Hstate. unfold bind, ret.
  destruct (_update_state_attributes payload self) as [[r s'] out].
  reflexivity.
Qed.

Lemma possible_state_value s v :
  Dict.get POSSIBLE_STATES s = Some v ->
  v = s /\ String.eqb s EmptyString = false.
Proof.
  unfold POSSIBLE_STATES. cbn [Dict.get].
  destruct (String.eqb STATE_ON s) eqn:E1;
    [apply String.eqb_eq in E1; subst; intros [= <-]; now split|].
  destruct (String.eqb STATE_OFF s) eqn:E2;
    [apply String.eqb_eq in E2; subst; intros [= <-]; now split|].
  destruct (String.eqb STATE_PLAYING s) eqn:E3;
    [apply String.eqb_eq in E3; subst; intros [= <-]; now split|].
  destruct (String.eqb STATE_PAUSED s) eqn:E4;
    [apply String.eqb_eq in E4; subst; intros [= <-]; now split|].
  discriminate.
Qed.

Lemma state_message_received_known `{Host} raw payload s self :
  json_loads raw = Some (JDict payload) ->
  Dict.get payload STATE = Some (JStr s) ->
  Dict.contains POSSIBLE_STATES s = true ->
  state_message_received raw self =
  _update_state_attributes (Dict.del payload STATE)
    (set_attr_state (Some s) self).
Proof.
  intros Hraw Hstate Hs. unfold state_message_received, json_loads_object.
  rewrite Hraw. unfold bind at 1. unfold lift at 1. cbv beta iota.
  rewrite Hstate. unfold py_in. rewrite Hs.
  unfold Dict.contains in Hs.
  destruct (Dict.get POSSIBLE_STATES s) as [v|] eqn:Hv; [|discriminate].
  destruct (possible_state_value s v Hv) as [-> Hne].
  cbn [py_truthy orb]. rewrite Hne. cbn [negb].
  unfold bind, lift, ret, modify. cbn [orb]. cbv beta iota.
  destruct (_update_state_attributes _ _) as [[r s'] out]. reflexivity.
Qed.

Lemma state_message_received_null `{Host} raw payload self :
  json_loads raw = Some (JDict payload) ->
  Dict.get payload STATE = Some JNull ->
  state_message_received raw self =
  _update_state_attributes (Dict.del payload STATE)
    (set_attr_state None self).
Proof.
  intros Hraw Hstate. unfold state_message_received, json_loads_object.
  rewrite Hraw. unfold bind at 1. unfold lift at 1. cbv beta iota.
  rewrite Hstate. unfold py_in. cbn [py_truthy orb].
  unfold bind, lift, ret, modify. cbn [orb]. cbv beta iota.
  destruct (_update_state_attributes _ _) as [[r s'] out]. reflexivity.
Qed.

Lemma state_message_received_scalar `{Host} raw payload state self :
  json_loads raw = Some (JDict payload) ->
  Dict.get payload STATE = Some state ->
  (exists b, state = JBool b) \/ (exists z, state = JInt z)
  \/ (exists f, state = JFloat f) ->
  state_message_received raw self = _update_state_attributes payload self.
Proof.
  intros Hraw Hstate Hkind. unfold state_message_received, json_loads_object.
  rewrite Hraw. unfold bind at 1. unfold lift at 1. cbv beta iota.
  rewrite Hstate.
  destruct Hkind as [[b ->]|[[z ->]|[f ->]]]; unfold py_in;
    unfold bind, lift, ret; cbv beta iota; cbn [orb];
    destruct (_update_state_attributes payload self) as [[r s'] out];
    reflexivity.
Qed.

Lemma state_message_received_unhashable `{Host} raw payload state self :
  json_loads raw = Some (JDict payload) ->
  Dict.get payload STATE = Some state ->
  (exists l, state = JList l) \/ (exists d, state = JDict d) ->
  state_message_received raw self =
  (Raised (TypeError ("unhashable type: '" ++ py_type_name state ++ "'")),
   self, []).
Proof.
  intros Hraw Hstate Hkind. unfold state_message_received, json_loads_object.
  rewrite Hraw. unfold bind at 1. unfold lift at 1. cbv beta iota.
  rewrite Hstate.
  destruct Hkind as [[l ->]|[d ->]]; reflexivity.
Qed.

(** every run of the handler either stops before it has assigned anything,
    or comes to a run of [_update_state_attributes] on the player with, at
    most, a new playback status *)
Lemma state_message_received_cases `{Host} raw self :
  (exists e, state_message_received raw self = (Raised e, self, []))
  \/ (exists payload self',
        state_message_received raw self
        = _update_state_attributes payload self'
        /\ (self' = self \/ exists status, self' = set_attr_state status self)).
Proof.
  destruct (json_loads raw) as [value|] eqn:Hraw.
  2:{ left. exists JSONDecodeError.
      unfold state_message_received, json_loads_object. now rewrite Hraw. }
  destruct value as [| | | | | |payload];
    try (left; eexists; unfold state_message_received, json_loads_object;
         rewrite Hraw; reflexivity).
  destruct (Dict.get payload STATE) as [state|] eqn:Hstate.
  2:{ right. exists payload, self. split; [|now left].
      now apply state_message_received_absent. }
  destruct state as [|b|z|f|s|l|d].
  - right. exists (Dict.del payload STATE), (set_attr_state None self).
    split; [now apply state_message_received_null|right; now eexists].
  - right. exists payload, self. split; [|now left].
    apply (state_message_received_scalar raw payload (JBool b)); eauto.
  - right. exists payload, self. split; [|now left].
    apply (state_message_received_scalar raw payload (JInt z)); eauto.
  - right. exists payload, self. split; [|now left].
    apply (state_message_received_scalar raw payload (JFloat f)); eauto.
  - destruct (Dict.contains POSSIBLE_STATES s) eqn:Hs.
    + right.
      exists (Dict.del payload STATE), (set_attr_state (Some s) self).
      split; [now apply (state_message_received_known raw payload s)
             |right; now eexists].
    + right. exists payload, self. split; [|now left].
      now apply (state_message_received_unknown raw payload s).
  - left. eexists.
    apply (state_message_received_unhashable raw payload (JList l)); eauto.
  - left. eexists.
    apply (state_message_received_unhashable raw payload (JDict d)); eauto.
Qed.

Lemma is_possible_state s :
  In s [STATE_ON; STATE_OFF; STATE_PLAYING; STATE_PAUSED] ->
  Dict.contains POSSIBLE_STATES s = true.
Proof. intros [<-|[<-|[<-|[<-|[]]]]]; reflexivity. Qed.


Lemma not_a_number_raises x :
  as_decimal x = None ->
  py_min 100 x = Raised (not_supported "<" x).
Proof. intros Hx. unfold py_min, py_lt_int. now rewrite Hx. Qed.

Lemma clamp_int z :
  py_min 100 (JInt z) = Returned (JInt (Z.min 100 z))
  /\ py_max 0 (JInt (Z.min 100 z)) = Returned (JInt (Z.max 0 (Z.min 100 z))).
Proof.
  unfold py_min, py_max, py_lt_int, py_gt_int, decimal_compare.
  cbn [as_decimal expo mant]. change (0 <=? 0) with true. cbv iota.
  change (10 ^ 0) with 1. rewrite !Z.mul_1_r. split.
  - destruct (Z.compare_spec z 100); f_equal; f_equal; lia.
  - destruct (Z.compare_spec (Z.min 100 z) 0); f_equal; f_equal; lia.
Qed.

(** ** The inbound handler, case by case *)

(** X1.  A message whose [state] is one of "on", "off", "playing", "paused"
    sets the playback status to it and merges the payload without its
    [state] entry: with distinct keys, the [state] entry of the extra
    attributes is what it was before the message. *)
Theorem known_state_is_assigned `{Host} (raw : string)
  (payload : Dict.t json) (s : string) (self : MqttStateMediaPlayer) :
  json_loads raw = Some (JDict payload) ->
  Dict.get payload STATE = Some (JStr s) ->
  In s [STATE_ON; STATE_OFF; STATE_PLAYING; STATE_PAUSED] ->
  let self' := entity (state_message_received raw self) in
  _attr_state self' = Some s
  /\ _state_attrs self'
     = Dict.update (_state_attrs self) (Dict.del payload STATE)
  /\ (NoDup (Dict.keys payload) ->
      Dict.get (_state_attrs self') STATE
      = Dict.get (_state_attrs self) STATE).
Proof.
  intros Hraw Hstate Hs. cbv zeta.
  rewrite (state_message_received_known raw payload s self Hraw Hstate
             (is_possible_state s Hs)).
  destruct (_update_state_attributes_entity (Dict.del payload STATE)
              (set_attr_state (Some s) self)) as [Hst Hattrs].
  split; [exact Hst|]. split; [exact Hattrs|].
  intros Hnd. rewrite Hattrs. cbn [set_attr_state _state_attrs].
  apply DictFacts.get_update_other. now apply DictMore.del_removes.
Qed.

Lemma known_state_is_assigned_witness :
  let raw := RefJson.dumps
               (JDict [("state", JStr "paused"); ("volume", JInt 7)]) in
  let self' := entity (@state_message_received ref_host raw living_room) in
  _attr_state self' = Some "paused"
  /\ _state_attrs self' = [("volume", JInt 7)].
Proof.
  destruct (@known_state_is_assigned ref_host
              (RefJson.dumps
                 (JDict [("state", JStr "paused"); ("volume", JInt 7)]))
              [("state", JStr "paused"); ("volume", JInt 7)] "paused"
              living_room eq_refl eq_refl
              (or_intror (or_intror (or_intror (or_introl eq_refl)))))
    as [Hst [Hattrs _]].
  split; [exact Hst|exact Hattrs].
Defined.

(** X2.  A message whose [state] is null sets the playback status to
    unknown ([None]) and merges the payload without its [state] entry. *)
Theorem null_state_is_unknown `{Host} (raw : string)
  (payload : Dict.t json) (self : MqttStateMediaPlayer) :
  json_loads raw = Some (JDict payload) ->
  Dict.get payload STATE = Some JNull ->
  let self' := entity (state_message_received raw self) in
  _attr_state self' = None
  /\ _state_attrs self'
     = Dict.update (_state_attrs self) (Dict.del payload STATE).
Proof.
  intros Hraw Hstate. cbv zeta.
  rewrite (state_message_received_null raw payload self Hraw Hstate).
  exact (_update_state_attributes_entity (Dict.del payload STATE)
           (set_attr_state None self)).
Qed.

Lemma null_state_is_unknown_witness :
  let raw := RefJson.dumps (JDict [("state", JNull); ("volume", JInt 7)]) in
  let before := set_attr_state (Some "on") living_room in
  let self' := entity (@state_message_received ref_host raw before) in
  _attr_state self' = None /\ _state_attrs self' = [("volume", JInt 7)].
Proof.
  exact (@null_state_is_unknown ref_host
           (RefJson.dumps (JDict [("state", JNull); ("volume", JInt 7)]))
           [("state", JNull); ("volume", JInt 7)]
           (set_attr_state (Some "on") living_room) eq_refl eq_refl).
Defined.

(** X3.  A message without a [state] entry leaves the playback status as it
    was and merges its payload into the extra attributes: the keys it does
    not name keep their value, and with distinct keys every entry it names
    is found afterwards. *)
Theorem stateless_message_is_merged `{Host} (raw : string)
  (payload : Dict.t json) (self : MqttStateMediaPlayer) :
  json_loads raw = Some (JDict payload) ->
  Dict.get payload STATE = None ->
  let self' := entity (state_message_received raw self) in
  _attr_state self' = _attr_state self
  /\ (forall k, ~ In k (Dict.keys payload) ->
                Dict.get (_state_attrs self') k
                = Dict.get (_state_attrs self) k)
  /\ (NoDup (Dict.keys payload) ->
      forall k v, In (k, v) payload ->
                  Dict.get (_state_attrs self') k = Some v).
Proof.
  intros Hraw Hstate. cbv zeta.
  rewrite (state_message_received_absent raw payload self Hraw Hstate).
  destruct (_update_state_attributes_entity payload self) as [Hst Hattrs].
  split; [exact Hst|]. rewrite Hattrs. split.
  - intros k Hk. now apply DictFacts.get_update_other.
  - intros Hnd k v Hin. now apply DictFacts.get_update.
Qed.

Lemma stateless_message_is_merged_witness :
  let raw := RefJson.dumps (JDict [("volume", JInt 7)]) in
  let before :=
    set_state_attrs [("volume", JInt 1); ("source", JStr "TV")]
      (set_attr_state (Some "on") living_room) in
  let self' := entity (@state_message_received ref_host raw before) in
  _attr_state self' = Some "on"
  /\ Dict.get (_state_attrs self') "source" = Some (JStr "TV")
  /\ Dict.get (_state_attrs self') "volume" = Some (JInt 7).
Proof.
  destruct (@stateless_message_is_merged ref_host
              (RefJson.dumps (JDict [("volume", JInt 7)]))
              [("volume", JInt 7)]
              (set_state_attrs [("volume", JInt 1); ("source", JStr "TV")]
                 (set_attr_state (Some "on") living_room))
              eq_refl eq_refl) as [Hst [Hkeep Hnew]].
  split; [exact Hst|]. split.
  - apply (Hkeep "source"). intros [Hx|[]]. discriminate Hx.
  - apply Hnew; [|now left].
    unfold Dict.keys. cbn [map fst].
    constructor; [intros []|constructor].
Defined.

(** X4.  A message whose [state] is a list or an object raises [TypeError]
    (the value cannot be looked up in [POSSIBLE_STATES]) before anything is
    assigned: the player is as it was, and the other keys of the payload
    are not merged. *)
Theorem unhashable_state_raises `{Host} (raw : string)
  (payload : Dict.t json) (state : json) (self : MqttStateMediaPlayer) :
  json_loads raw = Some (JDict payload) ->
  Dict.get payload STATE = Some state ->
  (exists l, state = JList l) \/ (exists d, state = JDict d) ->
  exists msg,
    state_message_received raw self = (Raised (TypeError msg), self, []).
Proof.
  intros Hraw Hstate Hkind. eexists.
  now apply (state_message_received_unhashable raw payload state).
Qed.

Lemma unhashable_state_raises_witness :
  let raw := RefJson.dumps (JDict [("state", JList []); ("volume", JInt 7)]) in
  exists msg,
    @state_message_received ref_host raw living_room
    = (Raised (TypeError msg), living_room, []).
Proof.
  apply (@unhashable_state_raises ref_host
           (RefJson.dumps (JDict [("state", JList []); ("volume", JInt 7)]))
           [("state", JList []); ("volume", JInt 7)] (JList []) living_room
           eq_refl eq_refl).
  left. now exists [].
Defined.

(** X5.  A message whose [state] is a number or a boolean is treated like
    an unknown string: the playback status stays, and the whole payload,
    the [state] entry included, is merged into the extra attributes. *)
Theorem scalar_state_is_merged `{Host} (raw : string)
  (payload : Dict.t json) (state : json) (self : MqttStateMediaPlayer) :
  json_loads raw = Some (JDict payload) ->
  Dict.get payload STATE = Some state ->
  (exists b, state = JBool b) \/ (exists z, state = JInt z)
  \/ (exists f, state = JFloat f) ->
  let self' := entity (state_message_received raw self) in
  _attr_state self' = _attr_state self
  /\ _state_attrs self' = Dict.update (_state_attrs self) payload
  /\ (NoDup (Dict.keys payload) ->
      Dict.get (_state_attrs self') STATE = Some state).
Proof.
  intros Hraw Hstate Hkind. cbv zeta.
  rewrite (state_message_received_scalar raw payload state self
             Hraw Hstate Hkind).
  destruct (_update_state_attributes_entity payload self) as [Hst Hattrs].
  split; [exact Hst|]. split; [exact Hattrs|].
  intros Hnd. rewrite Hattrs.
  apply DictFacts.get_update; [exact Hnd|now apply DictFacts.get_In].
Qed.

Lemma scalar_state_is_merged_witness :
  let raw := RefJson.dumps (JDict [("state", JInt 1)]) in
  let before := set_attr_state (Some "on") living_room in
  let self' := entity (@state_message_received ref_host raw before) in
  _attr_state self' = Some "on"
  /\ _state_attrs self' = [("state", JInt 1)].
Proof.
  destruct (@scalar_state_is_merged ref_host
              (RefJson.dumps (JDict [("state", JInt 1)]))
              [("state", JInt 1)] (JInt 1)
              (set_attr_state (Some "on") living_room) eq_refl eq_refl
              (or_intror (or_introl (ex_intro _ 1 eq_refl))))
    as [Hst [Hattrs _]].
  split; [exact Hst|exact Hattrs].
Defined.

(** ** Fan speed and battery level *)

Lemma _update_state_attributes_fields payload self :
  let r := _update_state_attributes payload self in
  effects r = []
  /\ same_configuration (entity r) self
  /\ _attr_fan_speed (entity r)
     = Some (default (Dict.get (Dict.update (_state_attrs self) payload)
                        FAN_SPEED) (JInt 0)).
Proof.
  cbv zeta. rewrite _update_state_attributes_run. cbv zeta.
  destruct (py_min 100 _) as [low|e];
    [destruct (py_max 0 low) as [level|e]|];
    (split; [reflexivity|split; [repeat split|reflexivity]]).
Qed.

Lemma _update_state_attributes_poisoned payload self v :
  ~ In BATTERY (Dict.keys payload) ->
  Dict.get (_state_attrs self) BATTERY = Some v ->
  as_decimal v = None ->
  result (_update_state_attributes payload self)
  = Raised (not_supported "<" v).
Proof.
  intros Hout Hold Hv. rewrite _update_state_attributes_run. cbv zeta.
  rewrite (DictFacts.get_update_other payload _ BATTERY Hout), Hold.
  cbn [default]. now rewrite (not_a_number_raises v Hv).
Qed.



(** X7.  An integer [battery_level] in the payload is never refused: the
    call returns, and the battery level is the integer brought into 0..100.
    When neither the payload nor the extra attributes name a battery level,
    the battery level is 0. *)
Theorem integer_battery_level_is_clamped (payload : Dict.t json)
  (self : MqttStateMediaPlayer) :
  let r := _update_state_attributes payload self in
  (forall z, NoDup (Dict.keys payload) -> In (BATTERY, JInt z) payload ->
             result r = Returned tt
             /\ _attr_battery_level (entity r)
                = Some (JInt (Z.max 0 (Z.min 100 z))))
  /\ (~ In BATTERY (Dict.keys payload) ->
      Dict.get (_state_attrs self) BATTERY = None ->
      result r = Returned tt
      /\ _attr_battery_level (entity r) = Some (JInt 0)).
Proof.
  cbv zeta. rewrite _update_state_attributes_run. cbv zeta. split.
  - intros z Hnd Hin.
    rewrite (DictFacts.get_update payload _ BATTERY (JInt z) Hnd Hin).
    cbn [default]. destruct (clamp_int z) as [-> ->]. now split.
  - intros Hout Hold.
    rewrite (DictFacts.get_update_other payload _ BATTERY Hout), Hold.
    now split.
Qed.

Lemma integer_battery_level_is_clamped_witness :
  let r := _update_state_attributes
             [("battery_level", JInt 150)] living_room in
  result r = Returned tt
  /\ _attr_battery_level (entity r) = Some (JInt 100).
Proof.
  destruct (integer_battery_level_is_clamped
              [("battery_level", JInt 150)] living_room) as [Hint _].
  apply (Hint 150); [|now left].
  unfold Dict.keys. cbn [map fst]. constructor; [intros []|constructor].
Defined.

(** X8.  A [battery_level] that is not a number (a string, null, a list, an
    object) makes [_update_state_attributes] raise [TypeError] at the
    comparison with 100; by then the payload is merged and the fan speed is
    assigned, and the battery level keeps its old value. *)
Theorem non_numeric_battery_level_raises (payload : Dict.t json)
  (self : MqttStateMediaPlayer) (v : json) :
  NoDup (Dict.keys payload) ->
  In (BATTERY, v) payload ->
  as_decimal v = None ->
  let r := _update_state_attributes payload self in
  result r
  = Raised (TypeError ("'<' not supported between instances of '"
                       ++ py_type_name v ++ "' and 'int'"))
  /\ _state_attrs (entity r) = Dict.update (_state_attrs self) payload
  /\ _attr_fan_speed (entity r)
     = Some (default (Dict.get (_state_attrs (entity r)) FAN_SPEED) (JInt 0))
  /\ _attr_battery_level (entity r) = _attr_battery_level self.
Proof.
  intros Hnd Hin Hv. cbv zeta.
  rewrite _update_state_attributes_run. cbv zeta.
  rewrite (DictFacts.get_update payload _ BATTERY v Hnd Hin).
  cbn [default]. rewrite (not_a_number_raises v Hv).
  repeat split.
Qed.

Lemma non_numeric_battery_level_raises_witness :
  let r := _update_state_attributes
             [("battery_level", JStr "full"); ("fan_speed", JInt 2)]
             living_room in
  result r
  = Raised (TypeError
              "'<' not supported between instances of 'str' and 'int'")
  /\ _state_attrs (entity r)
     = [("battery_level", JStr "full"); ("fan_speed", JInt 2)]
  /\ _attr_fan_speed (entity r) = Some (JInt 2)
  /\ _attr_battery_level (entity r) = None.
Proof.
  assert (Hnd : NoDup (Dict.keys [("battery_level", JStr "full");
                                  ("fan_speed", JInt 2)])).
  { unfold Dict.keys. cbn [map fst].
    constructor; [intros [Hx|[]]; discriminate Hx|].
    constructor; [intros []|constructor]. }
  exact (non_numeric_battery_level_raises
           [("battery_level", JStr "full"); ("fan_speed", JInt 2)]
           living_room (JStr "full") Hnd (or_introl eq_refl) eq_refl).
Defined.

(** X9.  Once the extra attributes hold a [battery_level] that is not a
    number, every later message that decodes to an object and does not name
    a battery level of its own makes the handler raise [TypeError]. *)
Theorem non_numeric_battery_level_sticks `{Host} (raw : string)
  (payload : Dict.t json) (self : MqttStateMediaPlayer) (v : json) :
  json_loads raw = Some (JDict payload) ->
  ~ In BATTERY (Dict.keys payload) ->
  Dict.get (_state_attrs self) BATTERY = Some v ->
  as_decimal v = None ->
  exists msg,
    result (state_message_received raw self) = Raised (TypeError msg).
Proof.
  intros Hraw Hout Hold Hv.
  assert (Hdel : ~ In BATTERY (Dict.keys (Dict.del payload STATE))).
  { intros Hin. apply Hout.
    now apply (DictMore.keys_del_subset payload STATE). }
  destruct (Dict.get payload STATE) as [state|] eqn:Hstate.
  2:{ rewrite (state_message_received_absent raw payload self Hraw Hstate).
      eexists. now apply (_update_state_attributes_poisoned payload self v). }
  destruct state as [|b|z|f|s|l|d].
  - rewrite (state_message_received_null raw payload self Hraw Hstate).
    eexists. now apply (_update_state_attributes_poisoned _ _ v).
  - rewrite (state_message_received_scalar raw payload (JBool b) self
               Hraw Hstate) by eauto.
    eexists. now apply (_update_state_attributes_poisoned payload self v).
  - rewrite (state_message_received_scalar raw payload (JInt z) self
               Hraw Hstate) by eauto.
    eexists. now apply (_update_state_attributes_poisoned payload self v).
  - rewrite (state_message_received_scalar raw payload (JFloat f) self
               Hraw Hstate) by eauto.
    eexists. now apply (_update_state_attributes_poisoned payload self v).
  - destruct (Dict.contains POSSIBLE_STATES s) eqn:Hs.
    + rewrite (state_message_received_known raw payload s self
                 Hraw Hstate Hs).
      eexists. now apply (_update_state_attributes_poisoned _ _ v).
    + rewrite (state_message_received_unknown raw payload s self
                 Hraw Hstate Hs).
      eexists. now apply (_update_state_attributes_poisoned payload self v).
  - rewrite (state_message_received_unhashable raw payload (JList l) self
               Hraw Hstate) by eauto.
    eexists. reflexivity.
  - rewrite (state_message_received_unhashable raw payload (JDict d) self
               Hraw Hstate) by eauto.
    eexists. reflexivity.
Qed.

Lemma non_numeric_battery_level_sticks_witness :
  let raw := RefJson.dumps (JDict [("state", JStr "playing")]) in
  exists msg,
    result (@state_message_received ref_host raw poisoned)
    = Raised (TypeError msg).
Proof.
  apply (@non_numeric_battery_level_sticks ref_host
           (RefJson.dumps (JDict [("state", JStr "playing")]))
           [("state", JStr "playing")] poisoned (JStr "full"));
    try reflexivity.
  intros [Hx|[]]. discriminate Hx.
Defined.

(** X10.  After [_update_state_attributes] the fan speed is the
    [fan_speed] entry of the extra attributes, or 0 when there is none: a
    payload that does not name it leaves the fan speed of the earlier
    messages in place, and a payload that names it sets it to that value,
    whatever kind of value it is. *)
Theorem fan_speed_follows_extras (payload : Dict.t json)
  (self : MqttStateMediaPlayer) :
  let self' := entity (_update_state_attributes payload self) in
  _attr_fan_speed self'
  = Some (default (Dict.get (_state_attrs self') FAN_SPEED) (JInt 0))
  /\ (~ In FAN_SPEED (Dict.keys payload) ->
      _attr_fan_speed self'
      = Some (default (Dict.get (_state_attrs self) FAN_SPEED) (JInt 0)))
  /\ (NoDup (Dict.keys payload) ->
      forall v, In (FAN_SPEED, v) payload -> _attr_fan_speed self' = Some v).
Proof.
  cbv zeta.
  destruct (_update_state_attributes_fields payload self) as [_ [_ Hfan]].
  destruct (_update_state_attributes_entity payload self) as [_ Hattrs].
  rewrite Hfan, Hattrs. split; [reflexivity|]. split.
  - intros Hout. now rewrite DictFacts.get_update_other.
  - intros Hnd v Hin.
    now rewrite (DictFacts.get_update payload _ FAN_SPEED v Hnd Hin).
Qed.

Lemma fan_speed_follows_extras_witness :
  let before := set_state_attrs [("fan_speed", JInt 3)] living_room in
  _attr_fan_speed
    (entity (_update_state_attributes [("volume", JInt 7)] before))
  = Some (JInt 3)
  /\ _attr_fan_speed
       (entity (_update_state_attributes [("fan_speed", JStr "high")]
                  before))
     = Some (JStr "high").
Proof.
  split.
  - destruct (fan_speed_follows_extras [("volume", JInt 7)]
                (set_state_attrs [("fan_speed", JInt 3)] living_room))
      as [_ [Hkeep _]].
    apply Hkeep. intros [Hx|[]]. discriminate Hx.
  - destruct (fan_speed_follows_extras [("fan_speed", JStr "high")]
                (set_state_attrs [("fan_speed", JInt 3)] living_room))
      as [_ [_ Hnew]].
    apply Hnew; [|now left].
    unfold Dict.keys. cbn [map fst]. constructor; [intros []|constructor].
Defined.

(** ** Messages and the rest of the player *)

Lemma same_configuration_status status self :
  same_configuration (set_attr_state status self) self.
Proof. repeat split. Qed.

Lemma same_configuration_trans a b c :
  same_configuration a b -> same_configuration b c -> same_configuration a c.
Proof.
  unfold same_configuration. intros Hab Hbc.
  decompose [and] Hab. decompose [and] Hbc.
  repeat split; etransitivity; eassumption.
Qed.

(** X11.  The handler makes no host call, and it never touches what
    [_setup_from_config] assigned: configuration, supported features,
    source list, topics and payloads are the same after any message. *)
Theorem messages_keep_configuration `{Host} (raw : string)
  (self : MqttStateMediaPlayer) :
  effects (state_message_received raw self) = []
  /\ same_configuration (entity (state_message_received raw self)) self.
Proof.
  destruct (state_message_received_cases raw self)
    as [[e ->]|[payload [self' [-> Hself']]]].
  - split; [reflexivity|repeat split].
  - destruct (_update_state_attributes_fields payload self')
      as [Hout [Hconf _]].
    split; [exact Hout|].
    apply (same_configuration_trans _ self'); [exact Hconf|].
    destruct Hself' as [->|[status ->]];
      [repeat split|apply same_configuration_status].
Qed.

(** merging a payload a second time changes nothing *)
Lemma _update_state_attributes_again payload self :
  NoDup (Dict.keys payload) ->
  let r := _update_state_attributes payload self in
  _update_state_attributes payload (entity r) = (result r, entity r, [])
  /\ _update_state_attributes payload
       (set_attr_state (_attr_state self) (entity r))
     = (result r, entity r, []).
Proof.
  intros Hnd. cbv zeta.
  rewrite (_update_state_attributes_run payload self). cbv zeta.
  destruct (py_min 100 _) as [low|e] eqn:Hlow;
    [destruct (py_max 0 low) as [level|e] eqn:Hlevel|];
    cbn [entity result fst snd]; split;
    rewrite _update_state_attributes_run; cbv zeta;
    cbn [_state_attrs set_attr_battery_level set_attr_fan_speed
           set_state_attrs set_attr_state];
    rewrite (DictMore.update_idem payload _ Hnd), Hlow, ?Hlevel;
    reflexivity.
Qed.

(** X12.  Delivering the same message a second time changes nothing: when
    the keys of the decoded payload are distinct, the second run ends as the
    first did and leaves the player as the first left it. *)
Theorem redelivery_changes_nothing `{Host} (raw : string)
  (self : MqttStateMediaPlayer) :
  (forall payload, json_loads raw = Some (JDict payload) ->
                   NoDup (Dict.keys payload)) ->
  let once := state_message_received raw self in
  state_message_received raw (entity once) = (result once, entity once, []).
Proof.
  intros Hnd. cbv zeta.
  destruct (json_loads raw) as [value|] eqn:Hraw.
  2:{ unfold state_message_received, json_loads_object.
      now rewrite Hraw. }
  destruct value as [| | | | | |payload];
    try (unfold state_message_received, json_loads_object;
         rewrite Hraw; reflexivity).
  specialize (Hnd payload eq_refl).
  assert (Hdel : NoDup (Dict.keys (Dict.del payload STATE)))
    by now apply DictMore.NoDup_del.
  destruct (Dict.get payload STATE) as [state|] eqn:Hstate.
  2:{ rewrite !(state_message_received_absent raw payload _ Hraw Hstate).
      exact (proj1 (_update_state_attributes_again payload self Hnd)). }
  destruct state as [|b|z|f|s|l|d].
  - rewrite !(state_message_received_null raw payload _ Hraw Hstate).
    exact (proj2 (_update_state_attributes_again _
                    (set_attr_state None self) Hdel)).
  - rewrite !(state_message_received_scalar raw payload (JBool b) _
                Hraw Hstate) by eauto.
    exact (proj1 (_update_state_attributes_again payload self Hnd)).
  - rewrite !(state_message_received_scalar raw payload (JInt z) _
                Hraw Hstate) by eauto.
    exact (proj1 (_update_state_attributes_again payload self Hnd)).
  - rewrite !(state_message_received_scalar raw payload (JFloat f) _
                Hraw Hstate) by eauto.
    exact (proj1 (_update_state_attributes_again payload self Hnd)).
  - destruct (Dict.contains POSSIBLE_STATES s) eqn:Hs.
    + rewrite !(state_message_received_known raw payload s _
                  Hraw Hstate Hs).
      exact (proj2 (_update_state_attributes_again _
                      (set_attr_state (Some s) self) Hdel)).
    + rewrite !(state_message_received_unknown raw payload s _
                  Hraw Hstate Hs).
      exact (proj1 (_update_state_attributes_again payload self Hnd)).
  - rewrite !(state_message_received_unhashable raw payload (JList l) _
                Hraw Hstate) by eauto.
    reflexivity.
  - rewrite !(state_message_received_unhashable raw payload (JDict d) _
                Hraw Hstate) by eauto.
    reflexivity.
Qed.

Lemma redelivery_changes_nothing_witness :
  let raw := RefJson.dumps
               (JDict [("state", JStr "playing"); ("fan_speed", JInt 3)]) in
  let once := @state_message_received ref_host raw living_room in
  @state_message_received ref_host raw (entity once)
  = (result once, entity once, []).
Proof.
  apply (@redelivery_changes_nothing ref_host
           (RefJson.dumps
              (JDict [("state", JStr "playing"); ("fan_speed", JInt 3)]))
           living_room).
  intros payload Hp.
  assert (Hpayload :
            payload = [("state", JStr "playing"); ("fan_speed", JInt 3)]).
  { vm_compute in Hp. now injection Hp as <-. }
  subst payload. unfold Dict.keys. cbn [map fst].
  constructor; [intros [Hx|[]]; discriminate Hx|].
  constructor; [intros []|constructor].
Defined.

(** ** More on the command methods *)

(** the host calls of [_async_publish_command]: none, or one publish on the
    command topic followed by the state write *)
Lemma _async_publish_command_shape feature self :
  let r := _async_publish_command feature self in
  effects r = []
  \/ exists topic payload,
       _command_topic self = Some topic
       /\ result r = Returned tt
       /\ effects r
          = [Publish topic payload (CONF_QOS (_config self))
               (CONF_RETAIN (_config self)) (CONF_ENCODING (_config self));
             WriteHaState].
Proof.
  cbv zeta. rewrite _async_publish_command_run.
  destruct (_command_topic self) as [topic|]; [|now left].
  destruct (feature_get _FEATURE_PAYLOADS feature) as [key|]; [|now left].
  destruct (Dict.get (_payloads self) key) as [payload|]; [|now left].
  right. now exists topic, payload.
Qed.

Lemma invoke_shape `{Host} i self :
  let r := invoke i self in
  effects r = []
  \/ (on_command_topic i = true
      /\ exists topic payload,
           _command_topic self = Some topic
           /\ result r = Returned tt
           /\ effects r
              = [Publish topic payload (CONF_QOS (_config self))
                   (CONF_RETAIN (_config self))
                   (CONF_ENCODING (_config self));
                 WriteHaState])
  \/ (on_command_topic i = false
      /\ exists topic payload,
           _send_command_topic self = Some topic
           /\ result r = Returned tt
           /\ effects r
              = [Publish topic payload (CONF_QOS (_config self))
                   (CONF_RETAIN (_config self))
                   (CONF_ENCODING (_config self))]).
Proof.
  assert (Hcmd : forall feature,
            effects (_async_publish_command feature self) = []
            \/ (true = true
                /\ exists topic payload,
                     _command_topic self = Some topic
                     /\ result (_async_publish_command feature self)
                        = Returned tt
                     /\ effects (_async_publish_command feature self)
                        = [Publish topic payload (CONF_QOS (_config self))
                             (CONF_RETAIN (_config self))
                             (CONF_ENCODING (_config self));
                           WriteHaState])
            \/ (true = false
                /\ exists topic payload,
                     _send_command_topic self = Some topic
                     /\ result (_async_publish_command feature self)
                        = Returned tt
                     /\ effects (_async_publish_command feature self)
                        = [Publish topic payload (CONF_QOS (_config self))
                             (CONF_RETAIN (_config self))
                             (CONF_ENCODING (_config self))])).
  { intros feature.
    destruct (_async_publish_command_shape feature self) as [Hn|Hp];
      [now left|right; left; now split]. }
  cbv zeta.
  destruct i; cbn [invoke on_command_topic];
    unfold async_turn_off, async_turn_on, async_set_volume_level,
      async_mute_volume, async_pause, async_media_play, async_media_pause,
      async_media_previous_track, async_media_next_track;
    try apply Hcmd.
  - destruct mute; apply Hcmd.
  - rewrite async_select_source_run.
    destruct (known_source self source); [apply Hcmd|now left].
  - rewrite async_send_command_run.
    destruct (_send_command_topic self) as [topic|]; [|now left].
    destruct (Z.land _ _ =? 0); [now left|].
    right. right. split; [reflexivity|]. now eexists topic, _.
Qed.

(** X13.  Where the command methods publish: every publish of a command
    method goes to the command topic ([async_send_command]: to the
    send-command topic) with the configured QoS, retain flag and encoding;
    a call publishes at most once, asks for a state write only on the
    command-topic path, and makes no host call when it raises. *)
Theorem commands_publish_on_their_topic `{Host} (i : invocation)
  (self : MqttStateMediaPlayer) :
  let out := effects (invoke i self) in
  (forall topic payload qos retain encoding,
     In (Publish topic payload qos retain encoding) out ->
     (if on_command_topic i then _command_topic self
      else _send_command_topic self) = Some topic
     /\ qos = CONF_QOS (_config self)
     /\ retain = CONF_RETAIN (_config self)
     /\ encoding = CONF_ENCODING (_config self))
  /\ (List.length (publishes out) <= 1)%nat
  /\ (In WriteHaState out -> on_command_topic i = true)
  /\ (forall e, result (invoke i self) = Raised e -> out = []).
Proof.
  cbv zeta.
  destruct (invoke_shape i self)
    as [Hn|[[Hi [topic [payload [Ht [Hr Hout]]]]]
           |[Hi [topic [payload [Ht [Hr Hout]]]]]]].
  - rewrite Hn. split; [intros ? ? ? ? ? []|].
    split; [apply Nat.le_0_l|]. split; [intros []|reflexivity].
  - rewrite Hout, Hi, Hr. split.
    + intros t p q r e [[= <- <- <- <- <-]|[Hx|[]]];
        [now repeat split|discriminate Hx].
    + split; [apply Nat.le_refl|]. split; [reflexivity|discriminate].
  - rewrite Hout, Hi, Hr. split.
    + intros t p q r e [[= <- <- <- <- <-]|[]]. now repeat split.
    + split; [apply Nat.le_refl|].
      split; [intros [Hx|[]]; discriminate Hx|discriminate].
Qed.

(** X14.  After the set-up from an accepted configuration no method of
    the command topic can fail on a missing payload entry: every such call
    returns, except [async_select_source] with a source outside the source
    list. *)
Theorem configured_commands_return `{Host} (policy : extra)
  (raw : RawConfig) (config : ConfigType) (self : MqttStateMediaPlayer)
  (i : invocation) :
  validate policy raw = Returned config ->
  _payloads self = _payloads (entity (__init__ config)) ->
  on_command_topic i = true ->
  result (invoke i self) =
  match i with
  | SelectSource source =>
      if known_source self source then Returned tt
      else Raised (ValueError ("Unknown input source: " ++ source ++ "."))
  | _ => Returned tt
  end.
Proof.
  intros Hv Hp Hi.
  destruct (accepted_sets_up _ _ _ Hv) as [fs [_ Hinit]].
  rewrite Hinit in Hp. cbn [entity fst snd] in Hp.
  assert (Hcmd : forall feature key,
            feature_get _FEATURE_PAYLOADS feature = Some key ->
            result (_async_publish_command feature self) = Returned tt).
  { intros feature key Hk. rewrite _async_publish_command_run, Hk, Hp.
    rewrite (_payloads_after_setup _ _ _ feature key Hk).
    now destruct (_command_topic self). }
  destruct i; try discriminate Hi; cbn [invoke];
    unfold async_turn_off, async_turn_on, async_set_volume_level,
      async_mute_volume, async_pause, async_media_play, async_media_pause,
      async_media_previous_track, async_media_next_track;
    try (eapply Hcmd; reflexivity).
  - destruct mute; eapply Hcmd; reflexivity.
  - rewrite async_select_source_run.
    destruct (known_source self source);
      [eapply Hcmd; reflexivity|reflexivity].
Qed.

Lemma configured_commands_return_witness :
  result (@invoke ref_host MediaNextTrack living_room) = Returned tt
  /\ result (@invoke ref_host (SelectSource "Cassette") living_room)
     = Raised (ValueError "Unknown input source: Cassette.").
Proof.
  split.
  - exact (@configured_commands_return ref_host REMOVE_EXTRA living_room_raw
             (_config living_room) living_room MediaNextTrack
             eq_refl eq_refl eq_refl).
  - exact (@configured_commands_return ref_host REMOVE_EXTRA living_room_raw
             (_config living_room) living_room (SelectSource "Cassette")
             eq_refl eq_refl eq_refl).
Defined.

(** X15.  For a feature whose payload key the schema declares, a player set
    up from an accepted configuration with a command topic publishes the
    payload that the user wrote for the key, and the default of the schema
    when the user wrote none. *)
Theorem declared_payload_is_published `{Host} (policy : extra)
  (raw : RawConfig) (config : ConfigType)
  (feature : MediaPlayerEntityFeature.t) (key dflt topic : string) :
  validate policy raw = Returned config ->
  feature_get _FEATURE_PAYLOADS feature = Some key ->
  Dict.get schema_payloads key = Some dflt ->
  CONF_COMMAND_TOPIC config = Some topic ->
  let self := entity (__init__ config) in
  _async_publish_command feature self =
  (Returned tt, self,
   [Publish topic (Some (default (Dict.get (raw_payloads raw) key) dflt))
      (CONF_QOS config) (CONF_RETAIN config) (CONF_ENCODING config);
    WriteHaState]).
Proof.
  intros Hv Hk Hd Ht.
  destruct (accepted_sets_up _ _ _ Hv) as [fs [_ Hinit]].
  rewrite Hinit. cbn [entity fst snd]. cbv zeta.
  rewrite _async_publish_command_run, Hk.
  rewrite (_payloads_after_setup _ _ _ feature key Hk).
  rewrite (validate_payloads _ _ _ Hv), get_map_values, Hd.
  cbn [assign_from_config _command_topic]. rewrite Ht. reflexivity.
Qed.

Lemma declared_payload_is_published_witness :
  @validate ref_host PREVENT_EXTRA bedroom_raw = Returned (_config bedroom)
  /\ async_media_play (entity (@__init__ ref_host (_config bedroom)))
     = (Returned tt, entity (@__init__ ref_host (_config bedroom)),
        [Publish "player/command" (Some "PLAY!") 1 true "utf-8";
         WriteHaState])
  /\ async_media_next_track (entity (@__init__ ref_host (_config bedroom)))
     = (Returned tt, entity (@__init__ ref_host (_config bedroom)),
        [Publish "player/command" (Some "next") 1 true "utf-8";
         WriteHaState]).
Proof.
  split; [reflexivity|]. split.
  - exact (@declared_payload_is_published ref_host PREVENT_EXTRA bedroom_raw
             (_config bedroom) PLAY CONF_PAYLOAD_PLAY DEFAULT_PAYLOAD_PLAY
             "player/command" eq_refl eq_refl eq_refl eq_refl).
  - exact (@declared_payload_is_published ref_host PREVENT_EXTRA bedroom_raw
             (_config bedroom) NEXT_TRACK CONF_PAYLOAD_NEXT_TRACK
             DEFAULT_PAYLOAD_NEXT_TRACK "player/command"
             eq_refl eq_refl eq_refl eq_refl).
Defined.

(** X16.  The message of [async_send_command] with dictionary parameters:
    whatever the call publishes is the encoder's text of an object that
    holds every parameter and nothing else but [command]; its [command]
    entry is the command, unless the parameters have a [command] entry of
    their own, which then takes its place. *)
Theorem send_command_message `{Host} (self : MqttStateMediaPlayer)
  (command : string) (params : Dict.t json) :
  NoDup (Dict.keys params) ->
  forall topic payload qos retain encoding,
    In (Publish topic payload qos retain encoding)
      (effects (async_send_command command (Some (JDict params)) self)) ->
    exists message,
      payload = Some (json_dumps (JDict message))
      /\ Dict.get message "command"
         = Some (default (Dict.get params "command") (JStr command))
      /\ (forall k v, In (k, v) params -> Dict.get message k = Some v)
      /\ (forall k, Dict.get message k <> None ->
                    k = "command" \/ In k (Dict.keys params)).
Proof.
  intros Hnd topic payload qos retain encoding Hin.
  rewrite async_send_command_run in Hin.
  destruct (_send_command_topic self) as [t|]; [|destruct Hin].
  destruct (Z.land _ _ =? 0); [destruct Hin|].
  destruct Hin as [[= _ <- _ _ _]|[]].
  exists (Dict.update [("command", JStr command)] params).
  split; [reflexivity|]. split; [|split].
  - destruct (Dict.get params "command") as [v|] eqn:Hc.
    + apply DictFacts.get_update; [exact Hnd|now apply DictFacts.get_In].
    + rewrite DictFacts.get_update_other
        by now apply DictMore.get_None_not_key.
      reflexivity.
  - intros k v Hk. now apply DictFacts.get_update.
  - intros k Hk.
    destruct (in_dec string_dec k (Dict.keys params)) as [Hin|Hout];
      [now right|left].
    rewrite DictFacts.get_update_other in Hk by exact Hout.
    cbn [Dict.get] in Hk.
    destruct (String.eqb "command" k) eqn:E; [|now destruct Hk].
    apply String.eqb_eq in E. now subst.
Qed.

Lemma send_command_message_witness :
  effects (@async_send_command ref_host "foo"
             (Some (JDict [("bar", JInt 1); ("command", JStr "baz")]))
             studio)
  = [Publish "player/send"
       (Some (RefJson.dumps
                (JDict [("command", JStr "baz"); ("bar", JInt 1)])))
       0 false "utf-8"]
  /\ exists message,
       Some (RefJson.dumps
               (JDict [("command", JStr "baz"); ("bar", JInt 1)]))
       = Some (RefJson.dumps (JDict message))
       /\ Dict.get message "command" = Some (JStr "baz")
       /\ (forall k v,
             In (k, v) [("bar", JInt 1); ("command", JStr "baz")] ->
             Dict.get message k = Some v)
       /\ (forall k, Dict.get message k <> None ->
                     k = "command"
                     \/ In k (Dict.keys [("bar", JInt 1);
                                         ("command", JStr "baz")])).
Proof.
  assert (Hnd : NoDup (Dict.keys [("bar", JInt 1); ("command", JStr "baz")])).
  { unfold Dict.keys. cbn [map fst].
    constructor; [intros [Hx|[]]; discriminate Hx|].
    constructor; [intros []|constructor]. }
  split; [reflexivity|].
  exact (@send_command_message ref_host studio "foo"
           [("bar", JInt 1); ("command", JStr "baz")] Hnd
           "player/send"
           (Some (RefJson.dumps
                    (JDict [("command", JStr "baz"); ("bar", JInt 1)])))
           0 false "utf-8" (or_introl eq_refl)).
Defined.

Lemma commands_publish_on_their_topic_witness :
  In (Publish "player/command" (Some "play") 0 false "utf-8")
    (effects (@invoke ref_host MediaPlay living_room))
  /\ _command_topic living_room = Some "player/command"
  /\ CONF_QOS (_config living_room) = 0.
Proof.
  destruct (@commands_publish_on_their_topic ref_host MediaPlay living_room)
    as [Hpub _].
  destruct (Hpub "player/command" (Some "play") 0 false "utf-8"
              (or_introl eq_refl)) as [Htopic [Hqos _]].
  split; [now left|]. split; [exact Htopic|now symmetry].
Defined.

Lemma _async_publish_command_same_configuration feature a b :
  same_configuration a b ->
  result (_async_publish_command feature a)
  = result (_async_publish_command feature b)
  /\ effects (_async_publish_command feature a)
     = effects (_async_publish_command feature b).
Proof.
  intros [Hc [_ [_ [Ht [_ [_ Hp]]]]]].
  rewrite !_async_publish_command_run, Hc, Ht, Hp.
  destruct (_command_topic b); [|now split].
  destruct (feature_get _FEATURE_PAYLOADS feature); [|now split].
  destruct (Dict.get (_payloads b) _); now split.
Qed.

(** X17.  The command methods look at the configuration only: two players
    with the same configuration, whatever their device states, answer
    every call with the same result and the same host calls.  So the
    messages received do not change what a command does. *)
Theorem commands_ignore_device_state `{Host} (i : invocation)
  (a b : MqttStateMediaPlayer) :
  same_configuration a b ->
  result (invoke i a) = result (invoke i b)
  /\ effects (invoke i a) = effects (invoke i b).
Proof.
  intros Hab.
  pose proof (fun feature =>
                _async_publish_command_same_configuration feature a b Hab)
    as Hcmd.
  destruct Hab as [Hc [Hf [Hl [Ht [_ [Hs Hp]]]]]].
  destruct i; cbn [invoke];
    unfold async_turn_off, async_turn_on, async_set_volume_level,
      async_mute_volume, async_pause, async_media_play, async_media_pause,
      async_media_previous_track, async_media_next_track;
    try apply Hcmd.
  - destruct mute; apply Hcmd.
  - rewrite !async_select_source_run. unfold known_source. rewrite Hl.
    destruct (_attr_source_list b) as [l|]; [|now split].
    destruct (existsb (String.eqb source) l); [apply Hcmd|now split].
  - rewrite !async_send_command_run, Hs, Hf, Hc.
    destruct (_send_command_topic b); [|now split].
    destruct (Z.land _ _ =? 0); now split.
Qed.

Lemma commands_ignore_device_state_witness :
  let raw := RefJson.dumps
               (JDict [("state", JStr "playing"); ("fan_speed", JInt 3)]) in
  let later := entity (@state_message_received ref_host raw living_room) in
  result (@invoke ref_host MediaPause later)
  = result (@invoke ref_host MediaPause living_room)
  /\ effects (@invoke ref_host MediaPause later)
     = effects (@invoke ref_host MediaPause living_room).
Proof.
  apply (@commands_ignore_device_state ref_host MediaPause).
  repeat split.
Defined.

(** ** Set-up *)

(** X18.  [_setup_from_config] with an accepted configuration returns
    without a host call and leaves the device state alone (extra
    attributes, playback status, fan speed, battery level), so a player
    that is set up again keeps what it has heard; it assigns the source
    list and the three topics of the configuration.  A new player starts
    with no extra attributes and an unknown status. *)
Theorem setup_keeps_device_state `{Host} (policy : extra)
  (raw : RawConfig) (config : ConfigType) (self : MqttStateMediaPlayer) :
  validate policy raw = Returned config ->
  let r := _setup_from_config config self in
  result r = Returned tt
  /\ effects r = []
  /\ same_device_state (entity r) self
  /\ _attr_source_list (entity r) = Some (CONF_SOURCE_LIST config)
  /\ _command_topic (entity r) = CONF_COMMAND_TOPIC config
  /\ _set_volume_topic (entity r) = CONF_SET_VOLUME_TOPIC config
  /\ _send_command_topic (entity r) = CONF_SEND_COMMAND_TOPIC config
  /\ _state_attrs (entity (__init__ config)) = []
  /\ _attr_state (entity (__init__ config)) = None.
Proof.
  intros Hv. apply validate_features in Hv.
  destruct (strings_to_services_total _ _ Hv) as [services Hs].
  cbv zeta. unfold __init__, _setup_from_config, bind, lift, modify.
  rewrite Hs. repeat split.
Qed.

Lemma setup_keeps_device_state_witness :
  let heard :=
    set_attr_state (Some "playing")
      (set_state_attrs [("volume", JInt 7)] living_room) in
  let r := @_setup_from_config ref_host (_config bedroom) heard in
  result r = Returned tt
  /\ same_device_state (entity r) heard
  /\ _send_command_topic (entity r) = None.
Proof.
  destruct (@setup_keeps_device_state ref_host PREVENT_EXTRA bedroom_raw
              (_config bedroom)
              (set_attr_state (Some "playing")
                 (set_state_attrs [("volume", JInt 7)] living_room))
              eq_refl) as [Hr [_ [Hsame [_ [_ [_ [Hsend _]]]]]]].
  split; [exact Hr|]. split; [exact Hsame|exact Hsend].
Defined.

(** ** The tables *)

(** X19.  [STRING_TO_SERVICE] is the inverse of [SERVICE_TO_STRING]: a
    feature has a name exactly when the name is a key that leads back to
    the feature, so no name is used twice and none is lost. *)
Theorem name_tables_are_inverse (f : MediaPlayerEntityFeature.t)
  (name : string) :
  feature_get SERVICE_TO_STRING f = Some name
  <-> Dict.get STRING_TO_SERVICE name = Some f.
Proof.
  split.
  - destruct f; intros [= <-]; reflexivity.
  - intros Hg. apply string_to_service_in_table in Hg.
    cbv [SERVICE_TO_STRING In] in Hg.
    repeat (destruct Hg as [[= <- <-]|Hg]; [reflexivity|]).
    destruct Hg.
Qed.

(** X20.  Every feature that has a name has a payload key, which is
    "payload_" followed by the name, and the features without a name
    ([STATE], [SEND_COMMAND]) have none; the keys that
    [_setup_from_config] reads are the keys of [_FEATURE_PAYLOADS], in the
    same order. *)
Theorem payload_keys_follow_the_names :
  (forall f : MediaPlayerEntityFeature.t,
     feature_get _FEATURE_PAYLOADS f
     = option_map (String.append "payload_")
         (feature_get SERVICE_TO_STRING f))
  /\ payload_keys = map snd _FEATURE_PAYLOADS.
Proof. split; [intros f; destruct f; reflexivity|reflexivity]. Qed.

Section Services.

Context `{Host}.

Lemma fold_left_lor fs a :
  fold_left (fun acc f => Z.lor acc (flag f)) fs a = Z.lor a (lor_flags fs).
Proof.
  revert a. induction fs as [|f fs IH]; intros a; simpl.
  - now rewrite Z.lor_0_r.
  - now rewrite IH, Z.lor_assoc.
Qed.

Lemma lor_flags_app fs gs :
  lor_flags (fs ++ gs) = Z.lor (lor_flags fs) (lor_flags gs).
Proof.
  induction fs as [|f fs IH]; simpl; [reflexivity|].
  now rewrite IH, Z.lor_assoc.
Qed.

Lemma DEFAULT_SERVICES_flags :
  DEFAULT_SERVICES
  = lor_flags [TURN_ON; TURN_OFF; PLAY; PAUSE; STOP; VOLUME_SET;
               VOLUME_MUTE; SELECT_SOURCE].
Proof.
  change DEFAULT_SERVICES
    with (fold_left (fun acc f => Z.lor acc (flag f))
            [TURN_OFF; PLAY; PAUSE; STOP; VOLUME_SET; VOLUME_MUTE;
             SELECT_SOURCE] (flag TURN_ON)).
  now rewrite fold_left_lor.
Qed.

End Services.

(** X21.  Whatever the values of the flags, [ALL_SERVICES] is the union of
    the flags that have a name in [SERVICE_TO_STRING], and it contains
    [DEFAULT_SERVICES]; when the flags share no bit, it holds neither
    [STATE] nor [SEND_COMMAND]. *)
Theorem all_services_are_the_named_ones `{Host} :
  ALL_SERVICES = lor_flags (map fst SERVICE_TO_STRING)
  /\ Z.land DEFAULT_SERVICES ALL_SERVICES = DEFAULT_SERVICES
  /\ (flags_disjoint ->
      Z.land (flag MediaPlayerEntityFeature.STATE) ALL_SERVICES = 0
      /\ Z.land (flag SEND_COMMAND) ALL_SERVICES = 0).
Proof.
  assert (Hall : ALL_SERVICES = lor_flags (map fst SERVICE_TO_STRING)).
  { unfold ALL_SERVICES.
    rewrite fold_left_lor, DEFAULT_SERVICES_flags, <- lor_flags_app.
    apply lor_flags_same_members. intro f. rewrite in_app_iff.
    cbv [SERVICE_TO_STRING map fst In]. split; [|tauto].
    intros [Hd|Hin]; [|exact Hin].
    repeat (destruct Hd as [<-|Hd]; [tauto|]). destruct Hd. }
  split; [exact Hall|]. split.
  - unfold ALL_SERVICES. rewrite fold_left_lor.
    apply Z.bits_inj. intro n.
    rewrite Z.land_spec, Z.lor_spec.
    now destruct (Z.testbit DEFAULT_SERVICES n).
  - intros Hd. rewrite Hall. split; apply land_lor_flags_0;
      intros g Hg; apply Hd; intros <-;
      cbv [SERVICE_TO_STRING map fst In] in Hg;
      repeat (destruct Hg as [Hg|Hg]; [discriminate Hg|]); exact Hg.
Qed.

Lemma all_services_are_the_named_ones_witness :
  @ALL_SERVICES ref_host = 4194239
  /\ Z.land (@flag ref_host SEND_COMMAND) (@ALL_SERVICES ref_host) = 0.
Proof.
  destruct (@all_services_are_the_named_ones ref_host) as [_ [_ Hout]].
  split; [reflexivity|exact (proj2 (Hout ha_flag_disjoint))].
Defined.
